(** * discord-news-bot: a shallow embedding of [src/index.ts]

    The bot fetches news for a topic, asks a language model for a summary,
    formats a message and delivers it to a Discord channel or as a reply.
    This file embeds the functions of [src/index.ts] and proves the
    properties of the orchestration pipeline.

    Conventions.
    - A JavaScript string is the sequence of its UTF-16 code units
      ([jsstring = list N]); regular expressions without the [u] flag and
      [String.prototype.trim] both work on code units.
    - The external collaborators (news search, language model, Discord
      objects) are records of functions that either throw or return.
    - An [async] function is a computation in the monad [M]: it produces
      the sequence of collaborator calls it made and either an exception
      or a value. *)

From Stdlib Require Import Ascii String DecimalString.
From Stdlib Require Import List NArith Arith Lia Bool.
Import ListNotations.

(* ================================================================== *)
(** ** JavaScript strings *)
(* ================================================================== *)

Module JS.

(** A string is a sequence of UTF-16 code units. *)
Definition jsstring := list N.

(** The bytes of a source literal. *)
Definition bytes_of (s : string) : list N :=
  map N_of_ascii (list_ascii_of_string s).

(** UTF-8 decoding of the bytes of a literal into code points. *)
Fixpoint utf8_decode (bs : list N) : list N :=
  match bs with
  | [] => []
  | b :: r =>
    if (b <? 128)%N then b :: utf8_decode r
    else if (b <? 224)%N then
      match r with
      | c :: r' =>
        N.lor (N.shiftl (N.land b 31) 6) (N.land c 63) :: utf8_decode r'
      | _ => []
      end
    else if (b <? 240)%N then
      match r with
      | c :: d :: r' =>
        N.lor (N.shiftl (N.land b 15) 12)
          (N.lor (N.shiftl (N.land c 63) 6) (N.land d 63)) :: utf8_decode r'
      | _ => []
      end
    else
      match r with
      | c :: d :: e :: r' =>
        N.lor (N.shiftl (N.land b 7) 18)
          (N.lor (N.shiftl (N.land c 63) 12)
             (N.lor (N.shiftl (N.land d 63) 6) (N.land e 63)))
        :: utf8_decode r'
      | _ => []
      end
  end.

(** UTF-16 encoding of one code point: itself in the basic plane, a
    surrogate pair above it. *)
Definition utf16_units (cp : N) : list N :=
  if (cp <? 65536)%N then [cp]
  else
    let v := (cp - 65536)%N in
    [(55296 + N.shiftr v 10)%N; (56320 + N.land v 1023)%N].

(** The JavaScript string denoted by a source literal. *)
Definition lit (s : string) : jsstring :=
  flat_map utf16_units (utf8_decode (bytes_of s)).

(** The code unit of an ASCII character. *)
Definition ch (a : ascii) : N := N_of_ascii a.

Definition dquote : N := 34.
Definition LF : N := 10.

(** [String(n)] for a non-negative integer: its decimal digits. *)
Definition String_of_nat (n : nat) : jsstring :=
  lit (NilEmpty.string_of_uint (Nat.to_uint n)).

(** [Array.prototype.join]. *)
Fixpoint join (sep : jsstring) (xs : list jsstring) : jsstring :=
  match xs with
  | [] => []
  | [x] => x
  | x :: rest => x ++ sep ++ join sep rest
  end.

(** [Array.prototype.map] with the element and its index. *)
Fixpoint mapi_from {A B : Type} (f : A -> nat -> B) (i : nat) (xs : list A)
  : list B :=
  match xs with
  | [] => []
  | x :: rest => f x i :: mapi_from f (S i) rest
  end.

Definition mapi {A B : Type} (f : A -> nat -> B) (xs : list A) : list B :=
  mapi_from f 0 xs.

(** *** [String.prototype.trim]

    The code units removed are WhiteSpace and LineTerminator of the
    language specification: TAB, LF, VT, FF, CR, SP, NBSP, U+1680,
    U+2000..U+200A, U+2028, U+2029, U+202F, U+205F, U+3000 and U+FEFF. *)
Definition isTrimSpace (c : N) : bool :=
  ((9 <=? c) && (c <=? 13) || (c =? 32) || (c =? 160) || (c =? 5760)
   || (8192 <=? c) && (c <=? 8202)
   || (c =? 8232) || (c =? 8233) || (c =? 8239) || (c =? 8287)
   || (c =? 12288) || (c =? 65279))%N.

Fixpoint trimStart (s : jsstring) : jsstring :=
  match s with
  | [] => []
  | c :: r => if isTrimSpace c then trimStart r else s
  end.

Fixpoint trimEnd (s : jsstring) : jsstring :=
  match s with
  | [] => []
  | c :: r =>
    match trimEnd r with
    | [] => if isTrimSpace c then [] else [c]
    | t => c :: t
    end
  end.

Definition trim (s : jsstring) : jsstring := trimEnd (trimStart s).

(** *** Regular expressions

    The fragment used by the source: a pattern is a sequence of atoms, an
    atom is a class of code units under a quantifier ([x], [x?] or [x+]).
    Matching is the greedy backtracking of the language: a quantifier
    takes as much as it can and gives back when the rest fails. *)
Inductive cls : Type :=
| Lit (c : N)
| Range (lo hi : N).

Inductive quant : Type := One | Opt | Plus.

Definition atom : Type := (cls * quant)%type.
Definition pattern : Type := list atom.

Definition inCls (k : cls) (c : N) : bool :=
  match k with
  | Lit x => (c =? x)%N
  | Range lo hi => ((lo <=? c) && (c <=? hi))%N
  end.

(** [matchLen p s]: the number of code units of the match of [p] at the
    start of [s], if there is one. *)
Fixpoint matchLen (p : pattern) (s : jsstring) {struct p} : option nat :=
  match p with
  | [] => Some 0
  | (k, One) :: p' =>
    match s with
    | c :: r => if inCls k c then option_map S (matchLen p' r) else None
    | [] => None
    end
  | (k, Opt) :: p' =>
    match s with
    | c :: r =>
      if inCls k c then
        match matchLen p' r with
        | Some n => Some (S n)
        | None => matchLen p' s
        end
      else matchLen p' s
    | [] => matchLen p' s
    end
  | (k, Plus) :: p' =>
    let more :=
      fix more (t : jsstring) : option nat :=
        match t with
        | c :: r =>
          if inCls k c then
            match more r with
            | Some n => Some (S n)
            | None => matchLen p' t
            end
          else matchLen p' t
        | [] => matchLen p' t
        end in
    match s with
    | c :: r => if inCls k c then option_map S (more r) else None
    | [] => None
    end
  end.

(** [s.replace(/p/g, '')]: scan from the left; where the pattern matches,
    drop the matched code units and go on after them; elsewhere keep the
    code unit.  [skip] is the number of code units of the current match
    still to drop.  An empty match removes nothing. *)
Fixpoint removeFrom (p : pattern) (skip : nat) (s : jsstring) : jsstring :=
  match s with
  | [] => []
  | c :: r =>
    match skip with
    | S k => removeFrom p k r
    | 0 =>
      match matchLen p s with
      | Some (S n) => removeFrom p n r
      | _ => c :: removeFrom p 0 r
      end
    end
  end.

Definition removeAll (p : pattern) (s : jsstring) : jsstring :=
  removeFrom p 0 s.

(** [p] matches somewhere in [s] with a non-empty match. *)
Fixpoint occurs (p : pattern) (s : jsstring) : bool :=
  match s with
  | [] => false
  | _ :: r =>
    match matchLen p s with
    | Some (S _) => true
    | _ => occurs p r
    end
  end.

End JS.

Import JS.

(* ================================================================== *)
(** ** utils *)
(* ================================================================== *)

Definition digit : cls := Range (ch "0") (ch "9").

(** [/<@!?[0-9]+>/g] *)
Definition re_user : pattern :=
  [(Lit (ch "<"), One); (Lit (ch "@"), One); (Lit (ch "!"), Opt);
   (digit, Plus); (Lit (ch ">"), One)].

(** [/<@&[0-9]+>/g] *)
Definition re_role : pattern :=
  [(Lit (ch "<"), One); (Lit (ch "@"), One); (Lit (ch "&"), One);
   (digit, Plus); (Lit (ch ">"), One)].

(** [/<#(?:[0-9]+)>/g]; the group does not capture. *)
Definition re_channel : pattern :=
  [(Lit (ch "<"), One); (Lit (ch "#"), One);
   (digit, Plus); (Lit (ch ">"), One)].

Definition stripMentions (txt : jsstring) : jsstring :=
  trim (removeAll re_channel (removeAll re_role (removeAll re_user txt))).

(** Mention markup left in a text. *)
Definition hasMention (s : jsstring) : bool :=
  occurs re_user s || occurs re_role s || occurs re_channel s.

(* ================================================================== *)
(** ** Collaborators and effects *)
(* ================================================================== *)

(** A value that is thrown or logged as an error: an [Error], a
    [TypeError], or a plain string. *)
Inductive exn : Type :=
| Error (message : jsstring)
| TypeError (message : jsstring)
| Text (value : jsstring).

(** [interface Article] *)
Record Article : Type := {
  title : jsstring;
  description : option jsstring;
  url : jsstring;
  publishedAt : jsstring
}.

(** The news-search client, [newsapi.v2.everything(params)]. *)
Module NewsAPI.
Record Params : Type := {
  q : jsstring;
  sortBy : jsstring;
  pageSize : N;
  language : option jsstring
}.
Record ArticlesResult : Type := { articles : option (list Article) }.
Record client : Type := { everything : Params -> exn + ArticlesResult }.
End NewsAPI.

(** The language-model client, [openai.chat.completions.create(body)]. *)
Module OpenAI.
Record MessageParam : Type := { role : jsstring; text : jsstring }.
Record Body : Type := {
  model : jsstring;
  messages : list MessageParam;
  max_tokens : N
}.
Record CompletionMessage : Type := { content : option jsstring }.
Record Choice : Type := { message : CompletionMessage }.
Record ChatCompletion : Type := { choices : list Choice }.
Record client : Type := { create : Body -> exn + ChatCompletion }.
End OpenAI.

(** The objects of the chat platform. *)
Module Discord.
(** A message that was sent: only [suppressEmbeds] is used. *)
Record Sent : Type := { suppressEmbeds : bool -> exn + unit }.
Record TextChannel : Type := { send : jsstring -> exn + Sent }.
Record User : Type := { bot : bool; tag : jsstring }.
Record Message : Type := {
  author : User;
  channelId : jsstring;
  content : jsstring;
  reply : jsstring -> exn + Sent
}.
End Discord.

(** [TextChannel | Message<boolean>]: a channel has [send], a message has
    not, which is what ['send' in target] tests. *)
Inductive Target : Type :=
| OfChannel (c : Discord.TextChannel)
| OfMessage (m : Discord.Message).

(** What the process does to the outside, in order.  [ConsoleLog] is
    [console.log('[AI-News-Bot]', line)], [ConsoleError] is
    [console.error('[AI-News-Bot][ERROR][place]', err)]; the others are
    the calls to the collaborators with their argument. *)
Inductive event : Type :=
| ConsoleLog (line : jsstring)
| ConsoleError (place : jsstring) (err : exn)
| NewsEverything (params : NewsAPI.Params)
| ChatCreate (body : OpenAI.Body)
| ChannelSend (text : jsstring)
| MessageReply (text : jsstring)
| SuppressEmbeds (flag : bool).

(** An asynchronous computation: the events it produced, and either the
    value it resolved to or the exception it rejected with. *)
Definition M (A : Type) : Type := (list event * (exn + A))%type.

Definition ret {A : Type} (a : A) : M A := ([], inr a).

Definition bind {A B : Type} (m : M A) (f : A -> M B) : M B :=
  match m with
  | (t, inl e) => (t, inl e)
  | (t, inr a) => let (t', r) := f a in (t ++ t', r)
  end.

Definition throw {A : Type} (e : exn) : M A := ([], inl e).

(** [try { m } catch (e) { h e }] *)
Definition try_catch {A : Type} (m : M A) (h : exn -> M A) : M A :=
  match m with
  | (t, inl e) => let (t', r) := h e in (t ++ t', r)
  | (t, inr a) => (t, inr a)
  end.

(** [await] of a collaborator call: the call is recorded and its outcome
    is the outcome of the computation. *)
Definition call {A : Type} (ev : event) (outcome : exn + A) : M A :=
  ([ev], outcome).

Definition trace {A : Type} (m : M A) : list event := fst m.
Definition outcome {A : Type} (m : M A) : exn + A := snd m.

Declare Scope js_scope.
Delimit Scope js_scope with js.
Notation "x <- m ;; k" := (bind m (fun x => k))
  (at level 61, m at next level, right associativity) : js_scope.
Notation "m ;; k" := (bind m (fun _ => k))
  (at level 61, right associativity) : js_scope.
Local Open Scope js_scope.

(** Observations on a trace. *)
Definition isChatCreate (ev : event) : bool :=
  match ev with ChatCreate _ => true | _ => false end.

Definition isDelivery (ev : event) : bool :=
  match ev with ChannelSend _ | MessageReply _ => true | _ => false end.

Definition isNewsEverything (ev : event) : bool :=
  match ev with NewsEverything _ => true | _ => false end.

Definition chatCalls (t : list event) : list event := filter isChatCreate t.
Definition deliveries (t : list event) : list event := filter isDelivery t.
Definition newsCalls (t : list event) : list event := filter isNewsEverything t.

(** The delivery call a target receives for a text. *)
Definition deliveryTo (target : Target) (text : jsstring) : event :=
  match target with
  | OfChannel _ => ChannelSend text
  | OfMessage _ => MessageReply text
  end.

(** Strict equality of a string and a possibly undefined string. *)
Fixpoint str_eqb (a b : jsstring) : bool :=
  match a, b with
  | [], [] => true
  | x :: a', y :: b' => (x =? y)%N && str_eqb a' b'
  | _, _ => false
  end.

Definition strictEq (a : jsstring) (b : option jsstring) : bool :=
  match b with
  | Some s => str_eqb a s
  | None => false
  end.

(* ================================================================== *)
(** ** The bot *)
(* ================================================================== *)

(** Texts of the source. *)
Definition summaryFailed : jsstring := lit "⚠️ 要約に失敗しました".
Definition noDailyNews : jsstring := lit "本日のニュースは見つかりませんでした。".
Definition noRelatedNews : jsstring := lit "関連ニュースが見つかりませんでした。".
Definition curatedHeader : jsstring := lit "📰 今日の AI ニュースまとめ".
Definition topicHeader (theme : jsstring) : jsstring :=
  lit "📰 **" ++ theme ++ lit "** に関する最新ニュースまとめ".
Definition separator : jsstring := lit "──────────────".
Definition instruction : jsstring :=
  lit "次の複数記事を日本語 200 字以内で分かりやすく要約し、"
  ++ lit "箇条書きでポイントを整理してください。" ++ [LF; LF].
Definition aiClause : jsstring :=
  lit " AND (AI OR " ++ [dquote] ++ lit "artificial intelligence"
  ++ [dquote] ++ lit " OR GenerativeAI)".

(** The ordinal marker of the [i]-th entry, counted from zero. *)
Definition marker (i : nat) : jsstring :=
  lit "【" ++ String_of_nat (i + 1) ++ lit "】".

(** [opts: { aiFilter?: boolean }] and the default values of the
    parameters of [fetchNews]. *)
Record FetchOpts : Type := { aiFilter : option bool }.

Definition truthy (b : option bool) : bool :=
  match b with Some true => true | _ => false end.

Definition default_pageSize : N := 5.
Definition default_opts : FetchOpts := {| aiFilter := Some true |}.

Definition log (line : jsstring) : M unit := call (ConsoleLog line) (inr tt).

Definition logError (place : jsstring) (err : exn) : M unit :=
  call (ConsoleError place err) (inr tt).

(** [a.description ?? ''] *)
Definition descriptionText (a : Article) : jsstring :=
  match description a with Some d => d | None => [] end.

Definition promptEntry (a : Article) (i : nat) : jsstring :=
  marker i ++ title a ++ [LF] ++ descriptionText a.

Definition promptBody (articles : list Article) : jsstring :=
  join [LF; LF] (mapi promptEntry articles).

Definition summaryRequest (articles : list Article) : OpenAI.Body :=
  {| OpenAI.model := lit "gpt-4o";
     OpenAI.messages :=
       [{| OpenAI.role := lit "user";
           OpenAI.text := instruction ++ promptBody articles |}];
     OpenAI.max_tokens := 400 |}.

(** [res.choices[0].message.content?.trim() ?? '']; reading [message] of
    an absent first choice throws. *)
Definition completionText (res : OpenAI.ChatCompletion) : M jsstring :=
  match nth_error (OpenAI.choices res) 0 with
  | None =>
    throw (TypeError
             (lit "Cannot read properties of undefined (reading 'message')"))
  | Some c =>
    match OpenAI.content (OpenAI.message c) with
    | Some s => ret (trim s)
    | None => ret []
    end
  end.

(* ================================================================== *)
(** ** Vocabulary of the further properties *)
(* ================================================================== *)

(** [s] is [t] with some code units left out. *)
Inductive Subseq : jsstring -> jsstring -> Prop :=
| Subseq_nil : Subseq [] []
| Subseq_skip (c : N) (s t : jsstring) : Subseq s t -> Subseq s (c :: t)
| Subseq_keep (c : N) (s t : jsstring) : Subseq s t -> Subseq (c :: s) (c :: t).

(** [s.split(sep)] for a separator of one code unit. *)
Fixpoint splitOn (sep : N) (s : jsstring) : list jsstring :=
  match s with
  | [] => [[]]
  | c :: r =>
    if (c =? sep)%N then [] :: splitOn sep r
    else
      match splitOn sep r with
      | h :: t => (c :: h) :: t
      | [] => [[c]]
      end
  end.

Definition without (c : N) (s : jsstring) : bool :=
  forallb (fun x => negb (x =? c)%N) s.

(** The loop of a [+] quantifier inside [matchLen]: after the first code
    unit, take more of the class while the rest still matches. *)
Definition greedy (k : cls) (p' : pattern) : jsstring -> option nat :=
  fix more (t : jsstring) : option nat :=
    match t with
    | c :: r =>
      if inCls k c then
        match more r with
        | Some n => Some (S n)
        | None => matchLen p' t
        end
      else matchLen p' t
    | [] => matchLen p' t
    end.

(** A text written as plain code units and the three kinds of mention
    markup of the platform: [<@id>] and [<@!id>] for a user, [<@&id>] for
    a role, [<#id>] for a channel, with a decimal [id]. *)
Inductive piece : Type :=
| Plain (c : N)
| UserMention (bang : bool) (id : jsstring)
| RoleMention (id : jsstring)
| ChannelMention (id : jsstring).

Definition isId (id : jsstring) : bool :=
  match id with
  | [] => false
  | _ => forallb (inCls digit) id
  end.

(** A plain code unit is not [<]; an id is a non-empty run of digits. *)
Definition wellFormed (p : piece) : bool :=
  match p with
  | Plain c => negb (c =? ch "<")%N
  | UserMention _ id => isId id
  | RoleMention id => isId id
  | ChannelMention id => isId id
  end.

Definition render (p : piece) : jsstring :=
  match p with
  | Plain c => [c]
  | UserMention bang id =>
    [ch "<"; ch "@"] ++ (if bang then [ch "!"] else []) ++ id ++ [ch ">"]
  | RoleMention id => [ch "<"; ch "@"; ch "&"] ++ id ++ [ch ">"]
  | ChannelMention id => [ch "<"; ch "#"] ++ id ++ [ch ">"]
  end.

Definition textOf (ps : list piece) : jsstring := flat_map render ps.

Definition plainOf (ps : list piece) : jsstring :=
  flat_map (fun p => match p with Plain c => [c] | _ => [] end) ps.

Definition isUser (p : piece) : bool :=
  match p with UserMention _ _ => true | _ => false end.

Definition isRole (p : piece) : bool :=
  match p with RoleMention _ => true | _ => false end.

Definition isChannel (p : piece) : bool :=
  match p with ChannelMention _ => true | _ => false end.

Definition isSuppress (ev : event) : bool :=
  match ev with SuppressEmbeds _ => true | _ => false end.

Definition isConsole (ev : event) : bool :=
  match ev with ConsoleLog _ | ConsoleError _ _ => true | _ => false end.

(** The method of the target that delivers: [send] of a channel, [reply]
    of a message. *)
Definition deliverWith (target : Target) : jsstring -> exn + Discord.Sent :=
  match target with
  | OfChannel c => Discord.send c
  | OfMessage m => Discord.reply m
  end.

(** *** env & client sanity check *)

Definition requiredEnv : list jsstring :=
  [lit "DISCORD_TOKEN"; lit "TARGET_CHANNEL_ID"; lit "OPENAI_API_KEY";
   lit "NEWS_API_KEY"].

(** [!process.env[k]]: the variable is unset or empty. *)
Definition unset (v : option jsstring) : bool :=
  match v with
  | None => true
  | Some [] => true
  | Some (_ :: _) => false
  end.

(** [Array.prototype.forEach] with an effectful callback. *)
Fixpoint forEach {A : Type} (xs : list A) (f : A -> M unit) : M unit :=
  match xs with
  | [] => ret tt
  | x :: r => f x ;; forEach r f
  end.

Definition envWarning (k : jsstring) : jsstring :=
  lit "⚠️  " ++ k ++ lit " が未設定".

(** [[...].forEach((k) => !process.env[k] && log(...))] *)
Definition envCheck (env : jsstring -> option jsstring) : M unit :=
  forEach requiredEnv
    (fun k => if unset (env k) then log (envWarning k) else ret tt).

(** Collaborators to run the bot on. *)
Module Sample.

(** A stand-in for the date formatting: the day part of the timestamp,
    with slashes.  It is what the runtime gives for a UTC timestamp whose
    day in Tokyo is its day in UTC, as those of [a1] and [a2] are. *)
Definition dayOf (iso : jsstring) : jsstring :=
  map (fun c => if (c =? ch "-")%N then ch "/" else c) (firstn 10 iso).

Definition a1 : Article :=
  {| title := lit "Chips";
     description := Some (lit "New accelerators");
     url := lit "https://example.org/1";
     publishedAt := lit "2025-05-02T01:00:00Z" |}.

Definition a2 : Article :=
  {| title := lit "Robots";
     description := None;
     url := lit "https://example.org/2";
     publishedAt := lit "2025-05-01T03:30:00Z" |}.

Definition newsTwo : NewsAPI.client :=
  {| NewsAPI.everything := fun _ =>
       inr {| NewsAPI.articles := Some [a1; a2] |} |}.

Definition newsNone : NewsAPI.client :=
  {| NewsAPI.everything := fun _ =>
       inr {| NewsAPI.articles := Some [] |} |}.

Definition newsDown : NewsAPI.client :=
  {| NewsAPI.everything := fun _ => inl (Error (lit "ECONNRESET")) |}.

Definition completion (c : option jsstring) : OpenAI.ChatCompletion :=
  {| OpenAI.choices := [{| OpenAI.message := {| OpenAI.content := c |} |}] |}.

Definition aiOk : OpenAI.client :=
  {| OpenAI.create := fun _ => inr (completion (Some (lit " ok "))) |}.

Definition aiNull : OpenAI.client :=
  {| OpenAI.create := fun _ => inr (completion None) |}.

Definition aiNoChoice : OpenAI.client :=
  {| OpenAI.create := fun _ => inr {| OpenAI.choices := [] |} |}.

Definition aiDown : OpenAI.client :=
  {| OpenAI.create := fun _ => inl (Error (lit "429")) |}.

Definition sent : Discord.Sent :=
  {| Discord.suppressEmbeds := fun _ => inr tt |}.

Definition channel : Discord.TextChannel :=
  {| Discord.send := fun _ => inr sent |}.

Definition room : jsstring := lit "1001".

Definition messageOf (isBot : bool) (chan body : jsstring)
  : Discord.Message :=
  {| Discord.author := {| Discord.bot := isBot; Discord.tag := lit "u#1" |};
     Discord.channelId := chan;
     Discord.content := body;
     Discord.reply := fun _ => inr sent |}.

Definition sentStuck : Discord.Sent :=
  {| Discord.suppressEmbeds := fun _ => inl (Error (lit "50013")) |}.

Definition channelDown : Discord.TextChannel :=
  {| Discord.send := fun _ => inl (Error (lit "50001")) |}.

Definition channelStuck : Discord.TextChannel :=
  {| Discord.send := fun _ => inr sentStuck |}.

(** An environment with the token and the channel set. *)
Definition envPartial (k : jsstring) : option jsstring :=
  if str_eqb k (lit "DISCORD_TOKEN") then Some (lit "t0k")
  else if str_eqb k (lit "TARGET_CHANNEL_ID") then Some room
  else if str_eqb k (lit "OPENAI_API_KEY") then Some []
  else None.


Definition aiBlank : OpenAI.client :=
  {| OpenAI.create := fun _ => inr (completion (Some [32; 10; 12288]%N)) |}.

(** [ <@123>hi<@&77><#9><@!5> ] *)
Definition pieces : list piece :=
  [Plain 32; UserMention false (lit "123"); Plain 104; Plain 105;
   RoleMention (lit "77"); ChannelMention (lit "9");
   UserMention true (lit "5"); Plain 32]%N.

(** [<@123> <@&77>] *)
Definition onlyMentions : list piece :=
  [UserMention false (lit "123"); Plain 32; RoleMention (lit "77")]%N.

(** A message in a channel where the bot may not write. *)
Definition mutedMessage : Discord.Message :=
  {| Discord.author := {| Discord.bot := false; Discord.tag := lit "u#1" |};
     Discord.channelId := room;
     Discord.content := lit "robots";
     Discord.reply := fun _ => inl (Error (lit "50013")) |}.

End Sample.

Section Bot.

(** The runtime's date formatting, [new Date(iso).toLocaleDateString
    ('ja-JP', { timeZone: 'Asia/Tokyo', ... })], the two clients and the
    environment variable the handlers read. *)
Variable toJSTDate : jsstring -> jsstring.
Variable newsapi : NewsAPI.client.
Variable openai : OpenAI.client.
Variable TARGET_CHANNEL_ID : option jsstring.

Definition summarize (articles : list Article) : M jsstring :=
  try_catch
    (let body := summaryRequest articles in
     res <- call (ChatCreate body) (OpenAI.create openai body) ;;
     completionText res)
    (fun e => logError (lit "summarize") e ;; ret summaryFailed).

Definition articleLine (a : Article) (i : nat) : jsstring :=
  marker i ++ toJSTDate (publishedAt a) ++ lit " ｜ " ++ url a.

Definition makeArticleList (articles : list Article) : jsstring :=
  join [LF] (mapi articleLine articles).

Definition searchQuery (query : jsstring) (opts : FetchOpts) : jsstring :=
  if truthy (aiFilter opts) then query ++ aiClause else query.

Definition searchParams (query : jsstring) (pageSize : N) (opts : FetchOpts)
  : NewsAPI.Params :=
  {| NewsAPI.q := searchQuery query opts;
     NewsAPI.sortBy := lit "publishedAt";
     NewsAPI.pageSize := pageSize;
     NewsAPI.language :=
       if truthy (aiFilter opts) then Some (lit "en") else None |}.

Definition fetchNews (query : jsstring) (pageSize : N) (opts : FetchOpts)
  : M (list Article) :=
  try_catch
    (let params := searchParams query pageSize opts in
     log (lit "Fetching news: " ++ [dquote] ++ NewsAPI.q params ++ [dquote]) ;;
     res <- call (NewsEverything params) (NewsAPI.everything newsapi params) ;;
     let articles := NewsAPI.articles res in
     log (lit "Fetched "
          ++ String_of_nat (match articles with Some l => length l | None => 0 end)
          ++ lit " articles") ;;
     ret (match articles with Some l => l | None => [] end))
    (fun e => logError (lit "fetchNews") e ;; ret []).

Definition header (theme : jsstring) (aiFilter : bool) : jsstring :=
  if aiFilter then curatedHeader else topicHeader theme.

(** The [message] of [composeAndSend]. *)
Definition composeMessage (theme : jsstring) (aiFilter : bool)
    (summary : jsstring) (articles : list Article) : jsstring :=
  header theme aiFilter ++ [LF] ++ summary ++ [LF]
  ++ separator ++ [LF] ++ makeArticleList articles.

(** [composeAndSend]; the notice of an empty result and the call that
    delivers are chosen by ['send' in target]. *)
Definition composeAndSend (target : Target) (theme : jsstring)
    (aiFilter : bool) : M unit :=
  articles <- fetchNews theme 5 {| aiFilter := Some aiFilter |} ;;
  if Nat.eqb (length articles) 0 then
    match target with
    | OfChannel c => call (ChannelSend noDailyNews) (Discord.send c noDailyNews) ;; ret tt
    | OfMessage m => call (MessageReply noRelatedNews) (Discord.reply m noRelatedNews) ;; ret tt
    end
  else
    summary <- summarize articles ;;
    let message := composeMessage theme aiFilter summary articles in
    match target with
    | OfChannel c =>
      sent <- call (ChannelSend message) (Discord.send c message) ;;
      call (SuppressEmbeds true) (Discord.suppressEmbeds sent true)
    | OfMessage m =>
      sent <- call (MessageReply message) (Discord.reply m message) ;;
      call (SuppressEmbeds true) (Discord.suppressEmbeds sent true)
    end.

(** The daily job; [ch] is the channel found in the client's cache. *)
Definition onCron (ch : option Discord.TextChannel) : M unit :=
  log (lit "Cron job fired (daily news)") ;;
  match ch with
  | Some c => composeAndSend (OfChannel c) (lit "AI") true
  | None => logError (lit "cron") (Text (lit "ターゲットチャンネルが見つかりません"))
  end.

(** [client.on('messageCreate', ...)] *)
Definition onMessageCreate (msg : Discord.Message) : M unit :=
  if Discord.bot (Discord.author msg) then ret tt
  else if negb (strictEq (Discord.channelId msg) TARGET_CHANNEL_ID) then ret tt
  else
    let theme := trim (stripMentions (Discord.content msg)) in
    match theme with
    | [] => ret tt
    | _ =>
      log (lit "Theme received: " ++ [dquote] ++ theme ++ [dquote]
           ++ lit " from " ++ Discord.tag (Discord.author msg)) ;;
      composeAndSend (OfMessage msg) theme false
    end.

(* ================================================================== *)
(** ** Facts on strings *)
(* ================================================================== *)

(** The model on small inputs. *)
Example lit_code_units : lit "【📰" = [12304; 55357; 56560]%N.
Proof. vm_compute; reflexivity. Qed.

Example String_of_nat_12 : String_of_nat 12 = lit "12".
Proof. vm_compute; reflexivity. Qed.

Example trim_both_ends :
  trim ([12288; 9]%N ++ lit " a b " ++ [160; LF]%N) = lit "a b".
Proof. vm_compute; reflexivity. Qed.

Example re_user_bang : matchLen re_user (lit "<@!123> hi") = Some 7.
Proof. vm_compute; reflexivity. Qed.

Example re_user_digits_needed : matchLen re_user (lit "<@!>") = None.
Proof. vm_compute; reflexivity. Qed.

Example re_role_only_amp : matchLen re_user (lit "<@&77>") = None
                           /\ matchLen re_role (lit "<@&77>") = Some 6.
Proof. split; vm_compute; reflexivity. Qed.

Example re_channel_at_start : matchLen re_channel (lit "<#9>x") = Some 4.
Proof. vm_compute; reflexivity. Qed.

(** A greedy quantifier gives back what the rest needs. *)
Example plus_gives_back :
  matchLen [(digit, Plus); (Lit (ch "1"), One)] (lit "121x") = Some 3.
Proof. vm_compute; reflexivity. Qed.

Example stripMentions_text :
  stripMentions (lit "  <@123> hello <#9> <@&77>x<@!5>  ") = lit "hello  x".
Proof. vm_compute; reflexivity. Qed.

Lemma trimStart_length (s : jsstring) : length (trimStart s) <= length s.
Proof.
  induction s as [|c r IH]; simpl; [lia|].
  destruct (isTrimSpace c); simpl; lia.
Qed.

Lemma trimEnd_length (s : jsstring) : length (trimEnd s) <= length s.
Proof.
  induction s as [|c r IH]; simpl; [lia|].
  destruct (trimEnd r) as [|d t]; [destruct (isTrimSpace c)|]; simpl in *; lia.
Qed.

Lemma trim_length (s : jsstring) : length (trim s) <= length s.
Proof.
  unfold trim.
  pose proof (trimEnd_length (trimStart s)).
  pose proof (trimStart_length s). lia.
Qed.

(** What [trimStart] returns does not start with a space. *)
Lemma trimStart_head (s : jsstring) :
  trimStart s = [] \/
  exists c r, trimStart s = c :: r /\ isTrimSpace c = false.
Proof.
  induction s as [|c r IH]; simpl; [now left|].
  destruct (isTrimSpace c) eqn:E; [exact IH|].
  right. exists c, r. now split.
Qed.

Lemma trimEnd_keeps_head (c : N) (r : jsstring) :
  isTrimSpace c = false -> exists r', trimEnd (c :: r) = c :: r'.
Proof.
  intros E. simpl. rewrite E.
  destruct (trimEnd r) as [|d t]; eauto.
Qed.

Lemma trimEnd_idem (s : jsstring) : trimEnd (trimEnd s) = trimEnd s.
Proof.
  induction s as [|c r IH]; simpl; [reflexivity|].
  destruct (trimEnd r) as [|d t] eqn:E.
  - destruct (isTrimSpace c) eqn:W; simpl; [reflexivity|].
    now rewrite W.
  - change (trimEnd (c :: d :: t)) with
      (match trimEnd (d :: t) with
       | [] => if isTrimSpace c then [] else [c]
       | x :: u => c :: x :: u
       end).
    now rewrite IH.
Qed.

(** [trim] is idempotent. *)
Lemma trim_idem (s : jsstring) : trim (trim s) = trim s.
Proof.
  unfold trim.
  destruct (trimStart_head s) as [E | (c & r & E & W)]; rewrite E.
  - reflexivity.
  - destruct (trimEnd_keeps_head c r W) as (r' & E').
    rewrite E'. simpl trimStart. rewrite W.
    rewrite <- E'. apply trimEnd_idem.
Qed.

Lemma removeFrom_length (p : pattern) (s : jsstring) :
  forall k, length (removeFrom p k s) <= length s.
Proof.
  induction s as [|c r IH]; intros k; simpl; [lia|].
  destruct k as [|k].
  - destruct (matchLen p (c :: r)) as [[|n]|]; simpl.
    + specialize (IH 0). lia.
    + specialize (IH n). lia.
    + specialize (IH 0). lia.
  - specialize (IH k). lia.
Qed.

Lemma removeAll_length (p : pattern) (s : jsstring) :
  length (removeAll p s) <= length s.
Proof. apply removeFrom_length. Qed.

(** Without an occurrence of the pattern nothing is removed. *)
Lemma removeAll_no_occurrence (p : pattern) (s : jsstring) :
  occurs p s = false -> removeAll p s = s.
Proof.
  unfold removeAll.
  induction s as [|c r IH]; simpl; [reflexivity|].
  destruct (matchLen p (c :: r)) as [[|n]|]; intros H;
    try discriminate; now rewrite IH.
Qed.

(** With an occurrence the result is strictly shorter. *)
Lemma removeAll_occurrence (p : pattern) (s : jsstring) :
  occurs p s = true -> length (removeAll p s) < length s.
Proof.
  unfold removeAll.
  induction s as [|c r IH]; simpl; [discriminate|].
  destruct (matchLen p (c :: r)) as [[|n]|]; intros H; simpl.
  - specialize (IH H). lia.
  - pose proof (removeFrom_length p r n). lia.
  - specialize (IH H). lia.
Qed.

Lemma stripMentions_length (s : jsstring) :
  length (stripMentions s) <= length s.
Proof.
  unfold stripMentions.
  pose proof (trim_length
    (removeAll re_channel (removeAll re_role (removeAll re_user s)))).
  pose proof (removeAll_length re_channel
    (removeAll re_role (removeAll re_user s))).
  pose proof (removeAll_length re_role (removeAll re_user s)).
  pose proof (removeAll_length re_user s).
  lia.
Qed.

Lemma stripMentions_trimmed (s : jsstring) :
  trim (stripMentions s) = stripMentions s.
Proof. unfold stripMentions. apply trim_idem. Qed.

(** On a trimmed text, [stripMentions] changes nothing exactly when the
    text holds no mention markup. *)
Lemma stripMentions_fixed_iff (t : jsstring) :
  trim t = t -> (stripMentions t = t <-> hasMention t = false).
Proof.
  intros Ht. unfold hasMention. split.
  - intros Hfix.
    destruct (occurs re_user t) eqn:E1; simpl.
    { exfalso. apply removeAll_occurrence in E1.
      pose proof (removeAll_length re_role (removeAll re_user t)).
      pose proof (removeAll_length re_channel
        (removeAll re_role (removeAll re_user t))).
      pose proof (trim_length (removeAll re_channel
        (removeAll re_role (removeAll re_user t)))).
      unfold stripMentions in Hfix. rewrite Hfix in *. lia. }
    apply removeAll_no_occurrence in E1.
    unfold stripMentions in Hfix. rewrite E1 in Hfix.
    destruct (occurs re_role t) eqn:E2; simpl.
    { exfalso. apply removeAll_occurrence in E2.
      pose proof (removeAll_length re_channel (removeAll re_role t)).
      pose proof (trim_length (removeAll re_channel (removeAll re_role t))).
      rewrite Hfix in *. lia. }
    apply removeAll_no_occurrence in E2. rewrite E2 in Hfix.
    destruct (occurs re_channel t) eqn:E3; [|reflexivity].
    exfalso. apply removeAll_occurrence in E3.
    pose proof (trim_length (removeAll re_channel t)).
    rewrite Hfix in *. lia.
  - intros H.
    apply orb_false_iff in H. destruct H as [H H3].
    apply orb_false_iff in H. destruct H as [H1 H2].
    unfold stripMentions.
    rewrite (removeAll_no_occurrence _ _ H1).
    rewrite (removeAll_no_occurrence _ _ H2).
    rewrite (removeAll_no_occurrence _ _ H3).
    exact Ht.
Qed.

(** *** Subsequences *)

Lemma Subseq_nil_l (t : jsstring) : Subseq [] t.
Proof. induction t; constructor; assumption. Qed.

Lemma Subseq_refl (t : jsstring) : Subseq t t.
Proof. induction t; constructor; assumption. Qed.

Lemma Subseq_trans (a b c : jsstring) :
  Subseq a b -> Subseq b c -> Subseq a c.
Proof.
  intros Hab Hbc. revert a Hab.
  induction Hbc as [|x b c Hbc IH|x b c Hbc IH]; intros a Hab.
  - exact Hab.
  - apply Subseq_skip. now apply IH.
  - inversion Hab; subst.
    + apply Subseq_skip. now apply IH.
    + apply Subseq_keep. now apply IH.
Qed.

Lemma Subseq_length (a b : jsstring) : Subseq a b -> length a <= length b.
Proof. induction 1; simpl; lia. Qed.

Lemma Subseq_without (x : N) (a b : jsstring) :
  Subseq a b -> without x b = true -> without x a = true.
Proof.
  unfold without. intros Hs.
  induction Hs as [|c a b Hs IH|c a b Hs IH]; simpl; intros Hw;
    [reflexivity| |];
    apply andb_true_iff in Hw; destruct Hw as [H1 H2].
  - auto.
  - rewrite H1. simpl. auto.
Qed.

Lemma trimStart_Subseq (s : jsstring) : Subseq (trimStart s) s.
Proof.
  induction s as [|c r IH]; simpl; [constructor|].
  destruct (isTrimSpace c); [now apply Subseq_skip | apply Subseq_refl].
Qed.

Lemma trimEnd_Subseq (s : jsstring) : Subseq (trimEnd s) s.
Proof.
  induction s as [|c r IH]; simpl; [constructor|].
  destruct (trimEnd r) as [|d t].
  - destruct (isTrimSpace c); [now apply Subseq_skip | now apply Subseq_keep].
  - now apply Subseq_keep.
Qed.

Lemma trim_Subseq (s : jsstring) : Subseq (trim s) s.
Proof.
  unfold trim.
  apply Subseq_trans with (trimStart s);
    [apply trimEnd_Subseq | apply trimStart_Subseq].
Qed.

Lemma removeFrom_Subseq (p : pattern) (s : jsstring) :
  forall k, Subseq (removeFrom p k s) s.
Proof.
  induction s as [|c r IH]; intros k; simpl; [constructor|].
  destruct k as [|k]; [|apply Subseq_skip, IH].
  destruct (matchLen p (c :: r)) as [[|n]|].
  - apply Subseq_keep, IH.
  - apply Subseq_skip, IH.
  - apply Subseq_keep, IH.
Qed.

(** *** The ends of a trimmed text *)

Lemma trimEnd_last (s : jsstring) (d : N) :
  trimEnd s = [] \/ isTrimSpace (last (trimEnd s) d) = false.
Proof.
  induction s as [|c r IH]; simpl; [now left|].
  destruct (trimEnd r) as [|x t] eqn:E.
  - destruct (isTrimSpace c) eqn:W; [now left | right; exact W].
  - right. destruct IH as [IH|IH]; [discriminate|].
    exact IH.
Qed.

Lemma trimStart_nil_iff (s : jsstring) :
  trimStart s = [] <-> forallb isTrimSpace s = true.
Proof.
  induction s as [|c r IH]; simpl; [split; reflexivity|].
  destruct (isTrimSpace c); simpl; [exact IH|].
  split; discriminate.
Qed.

Lemma trim_nil_iff (s : jsstring) :
  trim s = [] <-> forallb isTrimSpace s = true.
Proof.
  rewrite <- trimStart_nil_iff. unfold trim.
  destruct (trimStart_head s) as [E | (c & r & E & W)]; rewrite E.
  - simpl. split; reflexivity.
  - destruct (trimEnd_keeps_head c r W) as (r' & E'). rewrite E'.
    split; discriminate.
Qed.

(** *** Texts without the first code unit of a pattern *)

Lemma matchLen_other_head (x : N) (p' : pattern) (c : N) (r : jsstring) :
  (c =? x)%N = false -> matchLen ((Lit x, One) :: p') (c :: r) = None.
Proof. intros H. simpl. now rewrite H. Qed.

Lemma removeFrom_keeps_prefix (x : N) (p' : pattern) (t rest : jsstring) :
  without x t = true ->
  removeFrom ((Lit x, One) :: p') 0 (t ++ rest)
  = t ++ removeFrom ((Lit x, One) :: p') 0 rest.
Proof.
  unfold without. induction t as [|c t IH]; intros H; [reflexivity|].
  simpl in H. apply andb_true_iff in H. destruct H as [Hc Ht].
  apply negb_true_iff in Hc.
  change ((c :: t) ++ rest) with (c :: (t ++ rest)).
  cbn [removeFrom]. rewrite (matchLen_other_head x p' c (t ++ rest) Hc).
  now rewrite (IH Ht).
Qed.

Lemma removeAll_without (x : N) (p' : pattern) (s : jsstring) :
  without x s = true -> removeAll ((Lit x, One) :: p') s = s.
Proof.
  intros H. unfold removeAll.
  rewrite <- (app_nil_r s) at 1.
  rewrite (removeFrom_keeps_prefix x p' s [] H). simpl.
  apply app_nil_r.
Qed.

Lemma stripMentions_without_lt (s : jsstring) :
  without (ch "<") s = true -> stripMentions s = trim s.
Proof.
  intros H. unfold stripMentions, re_user, re_role, re_channel.
  now rewrite !(removeAll_without _ _ s H).
Qed.

(** *** Mentions *)

Lemma matchLen_one (k : cls) (p' : pattern) (c : N) (r : jsstring) :
  matchLen ((k, One) :: p') (c :: r)
  = if inCls k c then option_map S (matchLen p' r) else None.
Proof. reflexivity. Qed.

Lemma matchLen_opt (k : cls) (p' : pattern) (c : N) (r : jsstring) :
  matchLen ((k, Opt) :: p') (c :: r)
  = if inCls k c then
      match matchLen p' r with
      | Some n => Some (S n)
      | None => matchLen p' (c :: r)
      end
    else matchLen p' (c :: r).
Proof. reflexivity. Qed.

Lemma matchLen_plus (k : cls) (p' : pattern) (c : N) (r : jsstring) :
  matchLen ((k, Plus) :: p') (c :: r)
  = if inCls k c then option_map S (greedy k p' r) else None.
Proof. reflexivity. Qed.

Lemma greedy_cons (k : cls) (p' : pattern) (c : N) (r : jsstring) :
  greedy k p' (c :: r)
  = if inCls k c then
      match greedy k p' r with
      | Some n => Some (S n)
      | None => matchLen p' (c :: r)
      end
    else matchLen p' (c :: r).
Proof. reflexivity. Qed.

Lemma digit_range (d : N) : inCls digit d = true -> (48 <= d <= 57)%N.
Proof.
  intros H.
  assert (H' : ((48 <=? d) && (d <=? 57))%N = true) by exact H.
  apply andb_true_iff in H'. now rewrite !N.leb_le in H'.
Qed.

Lemma digit_is_not (d x : N) :
  inCls digit d = true -> (x < 48 \/ 57 < x)%N -> inCls (Lit x) d = false.
Proof.
  intros H Hx. apply digit_range in H.
  change (inCls (Lit x) d) with (d =? x)%N. apply N.eqb_neq. lia.
Qed.

Lemma without_id (x : N) (id : jsstring) :
  (x < 48 \/ 57 < x)%N -> forallb (inCls digit) id = true ->
  without x id = true.
Proof.
  intros Hx. unfold without. induction id as [|d id IH]; simpl; [reflexivity|].
  intros H. apply andb_true_iff in H. destruct H as [Hd Hid].
  rewrite (IH Hid), andb_true_r.
  apply negb_true_iff. exact (digit_is_not d x Hd Hx).
Qed.

(** The digits of an id and the closing bracket are taken whole. *)
Lemma greedy_id (id rest : jsstring) :
  forallb (inCls digit) id = true ->
  greedy digit [(Lit (ch ">"), One)] (id ++ ch ">" :: rest)
  = Some (S (length id)).
Proof.
  induction id as [|d id IH]; intros H.
  - reflexivity.
  - cbn [forallb] in H. apply andb_true_iff in H. destruct H as [Hd Hid].
    change ((d :: id) ++ ch ">" :: rest) with (d :: (id ++ ch ">" :: rest)).
    rewrite greedy_cons, Hd, (IH Hid). reflexivity.
Qed.

Lemma matchLen_id (id rest : jsstring) :
  isId id = true ->
  matchLen [(digit, Plus); (Lit (ch ">"), One)] (id ++ ch ">" :: rest)
  = Some (S (length id)).
Proof.
  destruct id as [|d id]; [discriminate|].
  unfold isId. cbn [forallb]. intros H.
  apply andb_true_iff in H. destruct H as [Hd Hid].
  change ((d :: id) ++ ch ">" :: rest) with (d :: (id ++ ch ">" :: rest)).
  rewrite matchLen_plus, Hd, (greedy_id id rest Hid). reflexivity.
Qed.

Lemma isId_head (id : jsstring) :
  isId id = true ->
  exists d id', id = d :: id' /\ inCls digit d = true
                /\ forallb (inCls digit) id = true.
Proof.
  destruct id as [|d id]; [discriminate|]. intros H.
  exists d, id. unfold isId in H. split; [reflexivity|]. split; [|exact H].
  cbn [forallb] in H. now apply andb_true_iff in H.
Qed.

Lemma removeFrom_skip (p : pattern) (t rest : jsstring) :
  removeFrom p (length t) (t ++ rest) = removeFrom p 0 rest.
Proof. induction t as [|c t IH]; [reflexivity | exact IH]. Qed.

Lemma removeFrom_matched (p : pattern) (c : N) (t rest : jsstring) :
  matchLen p (c :: t ++ rest) = Some (S (length t)) ->
  removeFrom p 0 (c :: t ++ rest) = removeFrom p 0 rest.
Proof. intros H. cbn [removeFrom]. rewrite H. apply removeFrom_skip. Qed.

Lemma removeFrom_unmatched (p : pattern) (c : N) (s : jsstring) :
  matchLen p (c :: s) = None ->
  removeFrom p 0 (c :: s) = c :: removeFrom p 0 s.
Proof. intros H. cbn [removeFrom]. now rewrite H. Qed.

(** A pass over pieces drops the selected ones and keeps the others, when
    the pattern matches the selected pieces whole and matches at no other
    piece. *)
Lemma removeAll_pieces (p' : pattern) (sel : piece -> bool) :
  (forall pc rest, wellFormed pc = true -> sel pc = true ->
     exists c t, render pc = c :: t /\
       matchLen ((Lit (ch "<"), One) :: p') (c :: t ++ rest)
       = Some (S (length t))) ->
  (forall pc rest, wellFormed pc = true -> sel pc = false ->
     exists c t, render pc = c :: t /\
       matchLen ((Lit (ch "<"), One) :: p') (c :: t ++ rest) = None /\
       without (ch "<") t = true) ->
  forall ps, forallb wellFormed ps = true ->
  removeAll ((Lit (ch "<"), One) :: p') (textOf ps)
  = textOf (filter (fun x => negb (sel x)) ps).
Proof.
  intros Hsel Hother. unfold removeAll.
  induction ps as [|pc ps IH]; intros Hwf; [reflexivity|].
  simpl in Hwf. apply andb_true_iff in Hwf. destruct Hwf as [Hpc Hps].
  change (textOf (pc :: ps)) with (render pc ++ textOf ps).
  cbn [filter]. destruct (sel pc) eqn:E; cbn [negb].
  - destruct (Hsel pc (textOf ps) Hpc E) as (c & t & Hr & Hm).
    rewrite Hr. change ((c :: t) ++ textOf ps) with (c :: t ++ textOf ps).
    rewrite (removeFrom_matched _ c t (textOf ps) Hm). now apply IH.
  - destruct (Hother pc (textOf ps) Hpc E) as (c & t & Hr & Hm & Ht).
    change (textOf (pc :: filter (fun x => negb (sel x)) ps))
      with (render pc ++ textOf (filter (fun x => negb (sel x)) ps)).
    rewrite Hr. change ((c :: t) ++ textOf ps) with (c :: t ++ textOf ps).
    rewrite (removeFrom_unmatched _ c (t ++ textOf ps) Hm).
    rewrite (removeFrom_keeps_prefix _ p' t (textOf ps) Ht).
    rewrite (IH Hps). reflexivity.
Qed.

Lemma forallb_filter_true {A : Type} (f g : A -> bool) (l : list A) :
  forallb f l = true -> forallb f (filter g l) = true.
Proof.
  induction l as [|x l IH]; simpl; [reflexivity|]. intros H.
  apply andb_true_iff in H. destruct H as [Hx Hl].
  destruct (g x); simpl; [rewrite Hx|]; auto.
Qed.

Lemma removeAll_user_pieces (ps : list piece) :
  forallb wellFormed ps = true ->
  removeAll re_user (textOf ps)
  = textOf (filter (fun x => negb (isUser x)) ps).
Proof.
  apply removeAll_pieces.
  - intros [c|bang id|id|id] rest Hwf Hs; try discriminate.
    cbn [wellFormed] in Hwf.
    destruct (isId_head id Hwf) as (d & id' & -> & Hd & Hall).
    pose proof (matchLen_id (d :: id') rest Hwf) as Hm.
    destruct bang.
    + exists (ch "<"), ([ch "@"; ch "!"] ++ (d :: id') ++ [ch ">"]).
      split; [reflexivity|].
      rewrite <- !app_assoc. cbn [app].
      rewrite !matchLen_one. cbn [inCls]. rewrite !N.eqb_refl.
      rewrite matchLen_opt. cbn [inCls]. rewrite N.eqb_refl.
      change (d :: id' ++ ch ">" :: rest)
        with ((d :: id') ++ ch ">" :: rest).
      rewrite Hm. cbn [option_map length]. rewrite length_app.
      cbn [length]. f_equal. lia.
    + exists (ch "<"), ([ch "@"] ++ (d :: id') ++ [ch ">"]).
      split; [reflexivity|].
      rewrite <- !app_assoc. cbn [app].
      rewrite !matchLen_one. cbn [inCls]. rewrite !N.eqb_refl.
      rewrite matchLen_opt.
      rewrite (digit_is_not d (ch "!") Hd) by (left; reflexivity).
      change (d :: id' ++ ch ">" :: rest)
        with ((d :: id') ++ ch ">" :: rest).
      rewrite Hm. cbn [option_map length]. rewrite length_app.
      cbn [length]. f_equal. lia.
  - intros [c|bang id|id|id] rest Hwf Hs; try discriminate;
      cbn [wellFormed] in Hwf.
    + exists c, []. split; [reflexivity|]. split; [|reflexivity].
      apply matchLen_other_head. now apply negb_true_iff.
    + exists (ch "<"), ([ch "@"; ch "&"] ++ id ++ [ch ">"]).
      split; [reflexivity|]. split.
      * reflexivity.
      * destruct (isId_head id Hwf) as (d & id' & _ & _ & Hall).
        unfold without. rewrite !forallb_app.
        fold (without (ch "<") id).
        rewrite (without_id (ch "<") id) by (auto; right; reflexivity).
        reflexivity.
    + exists (ch "<"), ([ch "#"] ++ id ++ [ch ">"]).
      split; [reflexivity|]. split.
      * reflexivity.
      * destruct (isId_head id Hwf) as (d & id' & _ & _ & Hall).
        unfold without. rewrite !forallb_app.
        fold (without (ch "<") id).
        rewrite (without_id (ch "<") id) by (auto; right; reflexivity).
        reflexivity.
Qed.

Lemma without_lt_body (pre id : jsstring) :
  without (ch "<") pre = true -> isId id = true ->
  without (ch "<") (pre ++ id ++ [ch ">"]) = true.
Proof.
  intros Hpre Hid.
  destruct (isId_head id Hid) as (d & id' & _ & _ & Hall).
  unfold without in *. rewrite !forallb_app, Hpre.
  fold (without (ch "<") id).
  rewrite (without_id (ch "<") id) by (auto; right; reflexivity).
  reflexivity.
Qed.

Lemma removeAll_role_pieces (ps : list piece) :
  forallb wellFormed ps = true ->
  removeAll re_role (textOf ps)
  = textOf (filter (fun x => negb (isRole x)) ps).
Proof.
  apply removeAll_pieces.
  - intros [c|bang id|id|id] rest Hwf Hs; try discriminate.
    cbn [wellFormed] in Hwf.
    pose proof (matchLen_id id rest Hwf) as Hm.
    exists (ch "<"), ([ch "@"; ch "&"] ++ id ++ [ch ">"]).
    split; [reflexivity|].
    rewrite <- !app_assoc. cbn [app].
    rewrite !matchLen_one. cbn [inCls]. rewrite !N.eqb_refl.
    rewrite Hm. cbn [option_map length]. rewrite length_app.
    cbn [length]. f_equal. lia.
  - intros [c|bang id|id|id] rest Hwf Hs; try discriminate;
      cbn [wellFormed] in Hwf.
    + exists c, []. split; [reflexivity|]. split; [|reflexivity].
      apply matchLen_other_head. now apply negb_true_iff.
    + exists (ch "<"), ([ch "@"] ++ (if bang then [ch "!"] else [])
                        ++ id ++ [ch ">"]).
      split; [reflexivity|]. split.
      * destruct bang; [reflexivity|].
        destruct (isId_head id Hwf) as (d & id' & -> & Hd & _).
        cbn [app]. rewrite !matchLen_one. cbn [inCls].
        rewrite !N.eqb_refl.
        change (d =? ch "&")%N with (inCls (Lit (ch "&")) d).
        rewrite (digit_is_not d (ch "&") Hd) by (left; reflexivity).
        reflexivity.
      * rewrite app_assoc. apply without_lt_body; [|exact Hwf].
        destruct bang; reflexivity.
    + exists (ch "<"), ([ch "#"] ++ id ++ [ch ">"]).
      split; [reflexivity|]. split; [reflexivity|].
      now apply without_lt_body.
Qed.

Lemma removeAll_channel_pieces (ps : list piece) :
  forallb wellFormed ps = true ->
  removeAll re_channel (textOf ps)
  = textOf (filter (fun x => negb (isChannel x)) ps).
Proof.
  apply removeAll_pieces.
  - intros [c|bang id|id|id] rest Hwf Hs; try discriminate.
    cbn [wellFormed] in Hwf.
    pose proof (matchLen_id id rest Hwf) as Hm.
    exists (ch "<"), ([ch "#"] ++ id ++ [ch ">"]).
    split; [reflexivity|].
    rewrite <- !app_assoc. cbn [app].
    rewrite !matchLen_one. cbn [inCls]. rewrite !N.eqb_refl.
    rewrite Hm. cbn [option_map length]. rewrite length_app.
    cbn [length]. f_equal. lia.
  - intros [c|bang id|id|id] rest Hwf Hs; try discriminate;
      cbn [wellFormed] in Hwf.
    + exists c, []. split; [reflexivity|]. split; [|reflexivity].
      apply matchLen_other_head. now apply negb_true_iff.
    + exists (ch "<"), ([ch "@"] ++ (if bang then [ch "!"] else [])
                        ++ id ++ [ch ">"]).
      split; [reflexivity|]. split; [reflexivity|].
      rewrite app_assoc. apply without_lt_body; [|exact Hwf].
      destruct bang; reflexivity.
    + exists (ch "<"), ([ch "@"; ch "&"] ++ id ++ [ch ">"]).
      split; [reflexivity|]. split; [reflexivity|].
      now apply without_lt_body.
Qed.

Lemma plainOf_filters (ps : list piece) :
  textOf (filter (fun x => negb (isChannel x))
            (filter (fun x => negb (isRole x))
               (filter (fun x => negb (isUser x)) ps)))
  = plainOf ps.
Proof.
  induction ps as [|[c|bang id|id|id] ps IH]; simpl; try exact IH;
    [reflexivity|].
  change (textOf (Plain c :: ?l)) with (c :: textOf l).
  unfold textOf in *. simpl. now rewrite IH.
Qed.

Lemma plainOf_without_lt (ps : list piece) :
  forallb wellFormed ps = true -> without (ch "<") (plainOf ps) = true.
Proof.
  unfold without.
  induction ps as [|[c|bang id|id|id] ps IH]; simpl; intros H;
    [reflexivity| | | |]; apply andb_true_iff in H; destruct H as [H1 H2];
    auto.
  rewrite H1. simpl. auto.
Qed.

(** *** Lines *)

Lemma splitOn_without (sep : N) (x : jsstring) :
  without sep x = true -> splitOn sep x = [x].
Proof.
  unfold without. induction x as [|c x IH]; simpl; [reflexivity|].
  intros H. apply andb_true_iff in H. destruct H as [Hc Hx].
  apply negb_true_iff in Hc. now rewrite Hc, (IH Hx).
Qed.

Lemma splitOn_app (sep : N) (x t : jsstring) :
  without sep x = true -> splitOn sep (x ++ sep :: t) = x :: splitOn sep t.
Proof.
  unfold without. induction x as [|c x IH]; simpl.
  - now rewrite N.eqb_refl.
  - intros H. apply andb_true_iff in H. destruct H as [Hc Hx].
    apply negb_true_iff in Hc. now rewrite Hc, (IH Hx).
Qed.

(** Splitting a joined list of texts without the separator gives the
    texts back. *)
Lemma splitOn_join (sep : N) (xs : list jsstring) :
  xs <> [] -> forallb (without sep) xs = true ->
  splitOn sep (join [sep] xs) = xs.
Proof.
  induction xs as [|x xs IH]; intros Hne H; [now elim Hne|].
  cbn [forallb] in H. apply andb_true_iff in H. destruct H as [Hx Hxs].
  destruct xs as [|y r].
  - now apply splitOn_without.
  - change (join [sep] (x :: y :: r)) with (x ++ sep :: join [sep] (y :: r)).
    rewrite (splitOn_app sep x _ Hx). f_equal.
    apply IH; [discriminate | exact Hxs].
Qed.

Lemma uint_digits (u : Decimal.uint) :
  forallb (inCls digit) (lit (NilEmpty.string_of_uint u)) = true.
Proof.
  induction u as [|u IH|u IH|u IH|u IH|u IH|u IH|u IH|u IH|u IH|u IH];
    [reflexivity| | | | | | | | | |];
    cbn [NilEmpty.string_of_uint];
    match goal with
    | |- context [lit (String ?a ?r)] =>
      change (lit (String a r)) with (N_of_ascii a :: lit r)
    end;
    cbn [forallb]; rewrite IH; reflexivity.
Qed.

Lemma String_of_nat_digits (n : nat) :
  forallb (inCls digit) (String_of_nat n) = true.
Proof. apply uint_digits. Qed.

Lemma marker_without_LF (i : nat) : without LF (marker i) = true.
Proof.
  unfold marker, without. rewrite !forallb_app.
  fold (without LF (String_of_nat (i + 1))).
  rewrite (without_id LF (String_of_nat (i + 1)))
    by (try apply String_of_nat_digits; left; reflexivity).
  reflexivity.
Qed.

Lemma str_eqb_eq (a b : jsstring) : str_eqb a b = true <-> a = b.
Proof.
  revert b. induction a as [|x a IH]; intros [|y b]; simpl;
    try (split; [discriminate | discriminate]); [tauto|].
  rewrite andb_true_iff, N.eqb_eq, IH.
  split; [intros [-> ->]; reflexivity | intros H; inversion H; auto].
Qed.

Lemma strictEq_false (a : jsstring) (b : option jsstring) :
  strictEq a b = false <-> Some a <> b.
Proof.
  destruct b as [s|]; simpl.
  - split.
    + intros H E. inversion E; subst.
      assert (str_eqb s s = true) by now apply str_eqb_eq.
      congruence.
    + intros H. destruct (str_eqb a s) eqn:E; [|reflexivity].
      apply str_eqb_eq in E. subst. now elim H.
  - split; [discriminate | reflexivity].
Qed.

Lemma strictEq_true (a : jsstring) (b : option jsstring) :
  Some a = b -> strictEq a b = true.
Proof. intros <-. simpl. now apply str_eqb_eq. Qed.

Lemma mapi_from_length {A B : Type} (f : A -> nat -> B) (xs : list A) :
  forall k, length (mapi_from f k xs) = length xs.
Proof. induction xs as [|x r IH]; intros k; simpl; [|rewrite IH]; reflexivity. Qed.

Lemma mapi_from_nth {A B : Type} (f : A -> nat -> B) (xs : list A) :
  forall k i a, nth_error xs i = Some a ->
  nth_error (mapi_from f k xs) i = Some (f a (k + i)).
Proof.
  induction xs as [|x r IH]; intros k [|i] a H; simpl in *; try discriminate.
  - inversion H; subst. now rewrite Nat.add_0_r.
  - rewrite (IH (S k) i a H). f_equal. f_equal. lia.
Qed.

Lemma mapi_nth {A B : Type} (f : A -> nat -> B) (xs : list A) i a :
  nth_error xs i = Some a -> nth_error (mapi f xs) i = Some (f a i).
Proof. intros H. unfold mapi. now rewrite (mapi_from_nth f xs 0 i a H). Qed.

(** Every joined element is a segment of the result. *)
Lemma join_nth_segment (sep : jsstring) (xs : list jsstring) :
  forall i x, nth_error xs i = Some x ->
  exists pre post, join sep xs = pre ++ x ++ post.
Proof.
  induction xs as [|y r IH]; intros [|i] x H; simpl in H; try discriminate.
  - inversion H; subst. exists [].
    destruct r as [|z r'].
    + exists []. simpl. now rewrite app_nil_r.
    + exists (sep ++ join sep (z :: r')). reflexivity.
  - destruct (IH i x H) as (pre & post & E).
    destruct r as [|z r']; [destruct i; discriminate|].
    exists (y ++ sep ++ pre), post.
    change (join sep (y :: z :: r')) with (y ++ sep ++ join sep (z :: r')).
    rewrite E. now rewrite <- !app_assoc.
Qed.

(* ================================================================== *)
(** ** Facts on the pipeline *)
(* ================================================================== *)

(** Literals are compared as written, not decoded, in the proofs below. *)
Opaque lit.

Lemma fetchNews_throws (query : jsstring) (ps : N) (opts : FetchOpts) e :
  NewsAPI.everything newsapi (searchParams query ps opts) = inl e ->
  fetchNews query ps opts =
  ([ConsoleLog (lit "Fetching news: " ++ [dquote]
                ++ searchQuery query opts ++ [dquote]);
    NewsEverything (searchParams query ps opts);
    ConsoleError (lit "fetchNews") e], inr []).
Proof.
  intros H. unfold fetchNews, try_catch, bind, log, logError, call, ret.
  rewrite H. reflexivity.
Qed.

Lemma fetchNews_returns (query : jsstring) (ps : N) (opts : FetchOpts) res :
  NewsAPI.everything newsapi (searchParams query ps opts) = inr res ->
  fetchNews query ps opts =
  ([ConsoleLog (lit "Fetching news: " ++ [dquote]
                ++ searchQuery query opts ++ [dquote]);
    NewsEverything (searchParams query ps opts);
    ConsoleLog (lit "Fetched "
                ++ String_of_nat (match NewsAPI.articles res with
                                  | Some l => length l
                                  | None => 0
                                  end)
                ++ lit " articles")],
   inr (match NewsAPI.articles res with Some l => l | None => [] end)).
Proof.
  intros H. unfold fetchNews, try_catch, bind, log, logError, call, ret.
  rewrite H. reflexivity.
Qed.

(** [fetchNews] never rejects, calls the search once and nothing else. *)
Lemma fetchNews_shape (query : jsstring) (ps : N) (opts : FetchOpts) :
  (exists l, outcome (fetchNews query ps opts) = inr l) /\
  newsCalls (trace (fetchNews query ps opts))
    = [NewsEverything (searchParams query ps opts)] /\
  chatCalls (trace (fetchNews query ps opts)) = [] /\
  deliveries (trace (fetchNews query ps opts)) = [].
Proof.
  destruct (NewsAPI.everything newsapi (searchParams query ps opts))
    as [e|res] eqn:E.
  - rewrite (fetchNews_throws _ _ _ _ E). simpl. eauto.
  - rewrite (fetchNews_returns _ _ _ _ E). simpl. eauto.
Qed.

(** The three ways [summarize] can go. *)
Lemma summarize_run (articles : list Article) :
  summarize articles =
  match OpenAI.create openai (summaryRequest articles) with
  | inl e =>
    ([ChatCreate (summaryRequest articles);
      ConsoleError (lit "summarize") e], inr summaryFailed)
  | inr res =>
    match OpenAI.choices res with
    | [] =>
      ([ChatCreate (summaryRequest articles);
        ConsoleError (lit "summarize")
          (TypeError
             (lit "Cannot read properties of undefined (reading 'message')"))],
       inr summaryFailed)
    | c :: _ =>
      ([ChatCreate (summaryRequest articles)],
       inr (match OpenAI.content (OpenAI.message c) with
            | Some s => trim s
            | None => []
            end))
    end
  end.
Proof.
  unfold summarize, try_catch, bind, logError, call, ret, completionText, throw.
  destruct (OpenAI.create openai (summaryRequest articles)) as [e|res];
    [reflexivity|].
  destruct (OpenAI.choices res) as [|c rest]; simpl; [reflexivity|].
  destruct (OpenAI.content (OpenAI.message c)); reflexivity.
Qed.

(** [summarize] never rejects, calls the model once and nothing else. *)
Lemma summarize_shape (articles : list Article) :
  (exists s, outcome (summarize articles) = inr s) /\
  chatCalls (trace (summarize articles))
    = [ChatCreate (summaryRequest articles)] /\
  deliveries (trace (summarize articles)) = [].
Proof.
  rewrite summarize_run.
  destruct (OpenAI.create openai (summaryRequest articles)) as [e|res];
    [simpl; eauto|].
  destruct (OpenAI.choices res) as [|c rest]; simpl; eauto.
Qed.

(** The run of [composeAndSend] on an empty result. *)
Lemma composeAndSend_empty (target : Target) (theme : jsstring) (af : bool) :
  outcome (fetchNews theme 5 {| aiFilter := Some af |}) = inr [] ->
  trace (composeAndSend target theme af) =
  trace (fetchNews theme 5 {| aiFilter := Some af |})
  ++ [deliveryTo target
        (match target with
         | OfChannel _ => noDailyNews
         | OfMessage _ => noRelatedNews
         end)].
Proof.
  unfold composeAndSend, outcome, trace.
  destruct (fetchNews theme 5 {| aiFilter := Some af |}) as [t r].
  simpl. intros ->. unfold bind at 1. simpl.
  destruct target as [c|m]; unfold bind, call, ret; simpl.
  - destruct (Discord.send c noDailyNews); reflexivity.
  - destruct (Discord.reply m noRelatedNews); reflexivity.
Qed.

(** The run of [composeAndSend] on a non-empty result. *)
Lemma composeAndSend_nonempty (target : Target) (theme : jsstring)
    (af : bool) (arts : list Article) :
  outcome (fetchNews theme 5 {| aiFilter := Some af |}) = inr arts ->
  arts <> [] ->
  exists summary rest,
    outcome (summarize arts) = inr summary /\
    (rest = [] \/ rest = [SuppressEmbeds true]) /\
    trace (composeAndSend target theme af) =
    trace (fetchNews theme 5 {| aiFilter := Some af |})
    ++ trace (summarize arts)
    ++ deliveryTo target (composeMessage theme af summary arts) :: rest.
Proof.
  intros Hf Hne.
  destruct (summarize_shape arts) as ((summary & Hs) & _).
  unfold composeAndSend, outcome, trace in *.
  destruct (fetchNews theme 5 {| aiFilter := Some af |}) as [t r].
  simpl in Hf. subst r. unfold bind at 1.
  destruct arts as [|a arts']; [now elim Hne|].
  change (length (a :: arts') =? 0) with false. cbv iota.
  destruct (summarize (a :: arts')) as [ts rs]. simpl in Hs. subst rs.
  unfold bind at 1.
  exists summary.
  destruct target as [c|m]; unfold bind, call; simpl.
  - destruct (Discord.send c _) as [e|sent].
    + exists []. auto.
    + exists [SuppressEmbeds true].
      destruct (Discord.suppressEmbeds sent true); auto.
  - destruct (Discord.reply m _) as [e|sent].
    + exists []. auto.
    + exists [SuppressEmbeds true].
      destruct (Discord.suppressEmbeds sent true); auto.
Qed.

Lemma isDelivery_deliveryTo (target : Target) (text : jsstring) :
  isDelivery (deliveryTo target text) = true.
Proof. destruct target; reflexivity. Qed.

(** What a run on a non-empty result calls and delivers. *)
Lemma composeAndSend_nonempty_calls (target : Target) (theme : jsstring)
    (af : bool) (arts : list Article) :
  outcome (fetchNews theme 5 {| aiFilter := Some af |}) = inr arts ->
  arts <> [] ->
  exists summary,
    outcome (summarize arts) = inr summary /\
    chatCalls (trace (composeAndSend target theme af))
      = [ChatCreate (summaryRequest arts)] /\
    deliveries (trace (composeAndSend target theme af))
      = [deliveryTo target (composeMessage theme af summary arts)].
Proof.
  intros Hf Hne.
  destruct (composeAndSend_nonempty target theme af arts Hf Hne)
    as (summary & rest & Hs & Hrest & Ht).
  destruct (fetchNews_shape theme 5 {| aiFilter := Some af |})
    as (_ & _ & Hfc & Hfd).
  destruct (summarize_shape arts) as (_ & Hsc & Hsd).
  exists summary. split; [exact Hs|].
  rewrite Ht. unfold chatCalls, deliveries in *.
  rewrite !filter_app, Hfc, Hfd, Hsc, Hsd. simpl.
  rewrite isDelivery_deliveryTo.
  split.
  - destruct target; destruct Hrest as [-> | ->]; reflexivity.
  - destruct Hrest as [-> | ->]; reflexivity.
Qed.

Lemma summaryFailed_nonempty : summaryFailed <> [].
Proof. intros H. vm_compute in H. discriminate. Qed.

(* ================================================================== *)
(** ** Properties of the specification *)
(* ================================================================== *)

(** C1: when the fetch step returns an article list of length 0,
    [composeAndSend] does one thing after the fetch, which is to send one
    "not found" notice to the delivery target; it makes no language-model
    call. *)
Theorem composeAndSend_empty_short_circuit
    (target : Target) (theme : jsstring) (af : bool) (arts : list Article) :
  outcome (fetchNews theme 5 {| aiFilter := Some af |}) = inr arts ->
  length arts = 0 ->
  chatCalls (trace (composeAndSend target theme af)) = [] /\
  (exists notice,
     (notice = ChannelSend (lit "本日のニュースは見つかりませんでした。") \/
      notice = MessageReply (lit "関連ニュースが見つかりませんでした。")) /\
     deliveries (trace (composeAndSend target theme af)) = [notice] /\
     trace (composeAndSend target theme af) =
       trace (fetchNews theme 5 {| aiFilter := Some af |}) ++ [notice]).
Proof.
  intros Hf Hlen.
  destruct arts; [|discriminate].
  rewrite (composeAndSend_empty target theme af Hf).
  destruct (fetchNews_shape theme 5 {| aiFilter := Some af |})
    as (_ & _ & Hfc & Hfd).
  unfold chatCalls, deliveries in *.
  rewrite !filter_app, Hfc, Hfd.
  destruct target; simpl; (split; [reflexivity|]); eexists;
    (split; [|split; reflexivity]); auto.
Qed.

(** C2: with [aiFilter] true [fetchNews] issues one search, whose query
    is the topic followed by [ AND (AI OR "artificial intelligence" OR
    GenerativeAI)] and whose language is English; with [aiFilter] false
    the query is the raw topic and no language is set; for the topic "AI"
    with the filter the query is exactly
    [AI AND (AI OR "artificial intelligence" OR GenerativeAI)]. *)
Theorem fetchNews_search_query (topic : jsstring) (ps : N) :
  newsCalls (trace (fetchNews topic ps {| aiFilter := Some true |})) =
    [NewsEverything
       {| NewsAPI.q :=
            topic ++ lit " AND (AI OR " ++ [dquote]
            ++ lit "artificial intelligence" ++ [dquote]
            ++ lit " OR GenerativeAI)";
          NewsAPI.sortBy := lit "publishedAt";
          NewsAPI.pageSize := ps;
          NewsAPI.language := Some (lit "en") |}] /\
  newsCalls (trace (fetchNews topic ps {| aiFilter := Some false |})) =
    [NewsEverything
       {| NewsAPI.q := topic;
          NewsAPI.sortBy := lit "publishedAt";
          NewsAPI.pageSize := ps;
          NewsAPI.language := None |}] /\
  newsCalls (trace (fetchNews (lit "AI") ps {| aiFilter := Some true |})) =
    [NewsEverything
       {| NewsAPI.q :=
            lit "AI AND (AI OR " ++ [dquote]
            ++ lit "artificial intelligence" ++ [dquote]
            ++ lit " OR GenerativeAI)";
          NewsAPI.sortBy := lit "publishedAt";
          NewsAPI.pageSize := ps;
          NewsAPI.language := Some (lit "en") |}].
Proof.
  split; [|split].
  - now destruct (fetchNews_shape topic ps {| aiFilter := Some true |})
      as (_ & H & _).
  - now destruct (fetchNews_shape topic ps {| aiFilter := Some false |})
      as (_ & H & _).
  - now destruct (fetchNews_shape (lit "AI") ps {| aiFilter := Some true |})
      as (_ & H & _).
Qed.

(** C3: on a non-empty article list, when the language-model call throws,
    [summarize] resolves to the fixed fallback text, and [composeAndSend]
    delivers one message: the header, the fallback, the separator and the
    rendered article list. *)
Theorem summarize_failure_still_delivers
    (target : Target) (theme : jsstring) (af : bool) (arts : list Article)
    (e : exn) :
  outcome (fetchNews theme 5 {| aiFilter := Some af |}) = inr arts ->
  arts <> [] ->
  OpenAI.create openai (summaryRequest arts) = inl e ->
  outcome (summarize arts) = inr (lit "⚠️ 要約に失敗しました") /\
  deliveries (trace (composeAndSend target theme af)) =
    [deliveryTo target
       (header theme af ++ [LF] ++ lit "⚠️ 要約に失敗しました" ++ [LF]
        ++ separator ++ [LF] ++ makeArticleList arts)].
Proof.
  intros Hf Hne He.
  assert (Hs : outcome (summarize arts) = inr summaryFailed).
  { rewrite summarize_run, He. reflexivity. }
  split; [exact Hs|].
  destruct (composeAndSend_nonempty_calls target theme af arts Hf Hne)
    as (summary & Hs' & _ & Hd).
  rewrite Hs in Hs'. inversion Hs'; subst summary.
  exact Hd.
Qed.

(** C4 (amended): stripping a stripped text again changes nothing exactly
    when the stripped text holds no mention markup. *)
Theorem stripMentions_idempotent_iff (s : jsstring) :
  stripMentions (stripMentions s) = stripMentions s <->
  hasMention (stripMentions s) = false.
Proof. apply stripMentions_fixed_iff, stripMentions_trimmed. Qed.

(** C5: on an article list of length at least 1 the pipeline calls the
    language model exactly once; the prompt is the instruction followed by
    one entry per article, in the order of the list and separated by an
    empty line; the entry of an article is its ordinal marker, its title,
    a line break and its description, an absent description being the
    empty text. *)
Theorem summarizer_called_once_with_every_title
    (target : Target) (theme : jsstring) (af : bool) (arts : list Article) :
  outcome (fetchNews theme 5 {| aiFilter := Some af |}) = inr arts ->
  1 <= length arts ->
  exists entries,
    chatCalls (trace (composeAndSend target theme af)) =
      [ChatCreate
         {| OpenAI.model := lit "gpt-4o";
            OpenAI.messages :=
              [{| OpenAI.role := lit "user";
                  OpenAI.text :=
                    (lit "次の複数記事を日本語 200 字以内で分かりやすく要約し、"
                     ++ lit "箇条書きでポイントを整理してください。"
                     ++ [LF; LF])
                    ++ join [LF; LF] entries |}];
            OpenAI.max_tokens := 400 |}] /\
    length entries = length arts /\
    forall i a, nth_error arts i = Some a ->
      nth_error entries i =
      Some (lit "【" ++ String_of_nat (i + 1) ++ lit "】" ++ title a
            ++ [LF]
            ++ (match description a with Some d => d | None => [] end)).
Proof.
  intros Hf Hlen.
  assert (Hne : arts <> []) by (destruct arts; [simpl in Hlen; lia | discriminate]).
  destruct (composeAndSend_nonempty_calls target theme af arts Hf Hne)
    as (summary & _ & Hc & _).
  exists (mapi promptEntry arts). split; [exact Hc|].
  split; [apply mapi_from_length|].
  intros i a Hi. rewrite (mapi_nth promptEntry arts i a Hi).
  unfold promptEntry, marker, descriptionText.
  now rewrite <- !app_assoc.
Qed.

(** C6: the message is the header (the fixed curated header with
    [aiFilter], the header holding the topic without it), the summary, the
    separator line, then one line per article with its date and its URL,
    in the order of the list; and it is what a run on a non-empty result
    delivers. *)
Theorem message_layout :
  (forall (theme summary : jsstring) (af : bool) (arts : list Article),
     exists lines,
       composeMessage theme af summary arts =
         (if af then lit "📰 今日の AI ニュースまとめ"
          else lit "📰 **" ++ theme ++ lit "** に関する最新ニュースまとめ")
         ++ [LF] ++ summary ++ [LF]
         ++ lit "──────────────" ++ [LF] ++ join [LF] lines /\
       length lines = length arts /\
       forall i a, nth_error arts i = Some a ->
         nth_error lines i =
         Some (lit "【" ++ String_of_nat (i + 1) ++ lit "】"
               ++ toJSTDate (publishedAt a) ++ lit " ｜ " ++ url a)) /\
  (forall (target : Target) (theme : jsstring) (af : bool)
          (arts : list Article),
     outcome (fetchNews theme 5 {| aiFilter := Some af |}) = inr arts ->
     arts <> [] ->
     exists summary,
       outcome (summarize arts) = inr summary /\
       deliveries (trace (composeAndSend target theme af)) =
         [deliveryTo target (composeMessage theme af summary arts)]).
Proof.
  split.
  - intros theme summary af arts.
    exists (mapi articleLine arts). split; [|split].
    + unfold composeMessage, header, curatedHeader, topicHeader, separator,
        makeArticleList.
      destruct af; now rewrite <- ?app_assoc.
    + apply mapi_from_length.
    + intros i a Hi. rewrite (mapi_nth articleLine arts i a Hi).
      unfold articleLine, marker. now rewrite <- !app_assoc.
  - intros target theme af arts Hf Hne.
    destruct (composeAndSend_nonempty_calls target theme af arts Hf Hne)
      as (summary & Hs & _ & Hd).
    eauto.
Qed.

(** C7: when the news-search call throws, [fetchNews] resolves to the
    empty article list; nothing is thrown to its caller. *)
Theorem fetchNews_failure_is_empty
    (query : jsstring) (ps : N) (opts : FetchOpts) (e : exn) :
  NewsAPI.everything newsapi (searchParams query ps opts) = inl e ->
  outcome (fetchNews query ps opts) = inr [].
Proof. intros H. now rewrite (fetchNews_throws _ _ _ _ H). Qed.

(** C8: the message handler does nothing for a message of a bot, of
    another channel than the configured one, or whose text is empty once
    the mentions are stripped; otherwise it runs [composeAndSend] on the
    message with the stripped text as topic and without the filter, and
    what is delivered is a reply. *)
Theorem onMessageCreate_gate (msg : Discord.Message) :
  (Discord.bot (Discord.author msg) = true ->
   onMessageCreate msg = ([], inr tt)) /\
  (Some (Discord.channelId msg) <> TARGET_CHANNEL_ID ->
   onMessageCreate msg = ([], inr tt)) /\
  (stripMentions (Discord.content msg) = [] ->
   onMessageCreate msg = ([], inr tt)) /\
  (Discord.bot (Discord.author msg) = false ->
   Some (Discord.channelId msg) = TARGET_CHANNEL_ID ->
   stripMentions (Discord.content msg) <> [] ->
   let run :=
     composeAndSend (OfMessage msg) (stripMentions (Discord.content msg))
       false in
   (exists line,
      trace (onMessageCreate msg) = ConsoleLog line :: trace run) /\
   outcome (onMessageCreate msg) = outcome run /\
   forall text, ~ In (ChannelSend text) (trace (onMessageCreate msg))).
Proof.
  unfold onMessageCreate.
  rewrite stripMentions_trimmed.
  split; [|split; [|split; [|intros H H0 H1;
                              apply strictEq_true in H0;
                              split; [|split; [|intros text]]]]].
  - intros ->. reflexivity.
  - intros H. apply strictEq_false in H. rewrite H.
    destruct (Discord.bot (Discord.author msg)); reflexivity.
  - intros ->.
    destruct (Discord.bot (Discord.author msg)); [reflexivity|].
    destruct (negb _); reflexivity.
  - rewrite H, H0. simpl negb. cbv iota.
    destruct (stripMentions (Discord.content msg)) as [|c r] eqn:Es;
      [now elim H1|].
    unfold log, call, bind, trace.
    destruct (composeAndSend (OfMessage msg) (c :: r) false) as [t o].
    eexists. reflexivity.
  - rewrite H, H0. simpl negb. cbv iota.
    destruct (stripMentions (Discord.content msg)) as [|c r] eqn:Es;
      [now elim H1|].
    unfold log, call, bind, outcome.
    destruct (composeAndSend (OfMessage msg) (c :: r) false) as [t o].
    reflexivity.
  - rewrite H, H0. simpl negb. cbv iota.
    destruct (stripMentions (Discord.content msg)) as [|c r] eqn:Es;
      [now elim H1|].
    intros Hin.
    assert (Hd : In (ChannelSend text)
                   (deliveries (trace (composeAndSend (OfMessage msg)
                                         (c :: r) false)))).
    { unfold deliveries. apply filter_In. split; [|reflexivity].
      unfold log, call, bind, trace in *.
      destruct (composeAndSend (OfMessage msg) (c :: r) false) as [t o].
      simpl in Hin. destruct Hin as [Hin|Hin]; [discriminate|exact Hin]. }
    destruct (fetchNews_shape (c :: r) 5 {| aiFilter := Some false |})
      as ((arts & Hf) & _ & _ & Hfd).
    destruct arts as [|a arts'].
    + rewrite (composeAndSend_empty (OfMessage msg) (c :: r) false Hf) in Hd.
      unfold deliveries in Hd, Hfd. rewrite filter_app, Hfd in Hd.
      simpl in Hd. destruct Hd as [Hd|[]]. discriminate.
    + assert (Hne : a :: arts' <> []) by discriminate.
      destruct (composeAndSend_nonempty_calls (OfMessage msg) (c :: r) false
                  (a :: arts') Hf Hne) as (summary & _ & _ & Hd').
      rewrite Hd' in Hd. simpl in Hd. destruct Hd as [Hd|[]]. discriminate.
Qed.

(** C9: on an empty fetch result the notice is chosen by the target alone:
    a channel is sent the daily-news notice and a message is replied the
    related-news notice, whatever the [aiFilter] flag and the topic. *)
Theorem notice_chosen_by_target
    (target : Target) (theme : jsstring) (af : bool) :
  outcome (fetchNews theme 5 {| aiFilter := Some af |}) = inr [] ->
  deliveries (trace (composeAndSend target theme af)) =
  [match target with
   | OfChannel _ => ChannelSend (lit "本日のニュースは見つかりませんでした。")
   | OfMessage _ => MessageReply (lit "関連ニュースが見つかりませんでした。")
   end].
Proof.
  intros Hf.
  rewrite (composeAndSend_empty target theme af Hf).
  destruct (fetchNews_shape theme 5 {| aiFilter := Some af |})
    as (_ & _ & _ & Hfd).
  unfold deliveries in *. rewrite filter_app, Hfd.
  destruct target; reflexivity.
Qed.

(** C10 (amended): when the call succeeds and the first choice of the
    response has a null or absent content, [summarize] resolves to the
    empty string, which is not the fallback; when that content is a text,
    [summarize] resolves to the text, trimmed; the fallback is the result
    when the call throws and when the response has no first choice; apart
    from these two cases it is the result only when it is itself the
    trimmed content of the first choice. *)
Theorem summarize_null_content_and_fallback (arts : list Article) :
  (forall res c rest,
     OpenAI.create openai (summaryRequest arts) = inr res ->
     OpenAI.choices res = c :: rest ->
     OpenAI.content (OpenAI.message c) = None ->
     outcome (summarize arts) = inr [] /\
     outcome (summarize arts) <> inr summaryFailed) /\
  (forall res c rest s,
     OpenAI.create openai (summaryRequest arts) = inr res ->
     OpenAI.choices res = c :: rest ->
     OpenAI.content (OpenAI.message c) = Some s ->
     outcome (summarize arts) = inr (trim s)) /\
  ((exists e, OpenAI.create openai (summaryRequest arts) = inl e) \/
   (exists res, OpenAI.create openai (summaryRequest arts) = inr res /\
                OpenAI.choices res = []) ->
   outcome (summarize arts) = inr summaryFailed) /\
  (outcome (summarize arts) = inr summaryFailed ->
   (exists e, OpenAI.create openai (summaryRequest arts) = inl e) \/
   (exists res, OpenAI.create openai (summaryRequest arts) = inr res /\
      (OpenAI.choices res = [] \/
       exists c rest s,
         OpenAI.choices res = c :: rest /\
         OpenAI.content (OpenAI.message c) = Some s /\
         trim s = summaryFailed))).
Proof.
  rewrite summarize_run. split; [|split; [|split]].
  - intros res c rest H H0 H1. rewrite H, H0, H1. split; [reflexivity|].
    simpl. intros E. injection E as E'.
    symmetry in E'. exact (summaryFailed_nonempty E').
  - intros res c rest s H H0 H1. rewrite H, H0, H1. reflexivity.
  - intros [(e & ->) | (res & -> & ->)]; reflexivity.
  - destruct (OpenAI.create openai (summaryRequest arts)) as [e|res];
      [eauto|].
    intros H. right. exists res. split; [reflexivity|].
    destruct (OpenAI.choices res) as [|c rest]; [now left|].
    right. simpl in H.
    destruct (OpenAI.content (OpenAI.message c)) as [s|] eqn:Ec.
    + exists c, rest, s. injection H as E'. auto.
    + injection H as E'. symmetry in E'.
      elim (summaryFailed_nonempty E').
Qed.

(* ================================================================== *)
(** ** Further properties of the code *)
(* ================================================================== *)

(** *** [stripMentions] *)

(** X1: [stripMentions] only leaves code units out: its result is a
    subsequence of its argument. *)
Theorem stripMentions_subsequence (s : jsstring) :
  Subseq (stripMentions s) s.
Proof.
  unfold stripMentions, removeAll.
  eapply Subseq_trans; [apply trim_Subseq|].
  eapply Subseq_trans; [apply removeFrom_Subseq|].
  eapply Subseq_trans; [apply removeFrom_Subseq|].
  apply removeFrom_Subseq.
Qed.

(** X2: the result of [stripMentions] is empty, or its first and its last
    code unit are not white space. *)
Theorem stripMentions_ends (s : jsstring) :
  stripMentions s = [] \/
  exists c r, stripMentions s = c :: r /\
              isTrimSpace c = false /\
              isTrimSpace (last (stripMentions s) c) = false.
Proof.
  unfold stripMentions.
  set (u := removeAll re_channel (removeAll re_role (removeAll re_user s))).
  unfold trim.
  destruct (trimStart_head u) as [E | (c & r & E & W)]; rewrite E.
  - now left.
  - right. destruct (trimEnd_keeps_head c r W) as (r' & E').
    exists c, r'. split; [exact E'|]. split; [exact W|].
    destruct (trimEnd_last (c :: r) c) as [H|H]; [|exact H].
    rewrite E' in H. discriminate.
Qed.

(** X3: a text without [<] holds no mention: it is trimmed and nothing
    else, and stripping it twice is stripping it once. *)
Theorem stripMentions_plain_text (s : jsstring) :
  without (ch "<") s = true ->
  stripMentions s = trim s /\
  stripMentions (stripMentions s) = stripMentions s.
Proof.
  intros H. rewrite (stripMentions_without_lt s H).
  split; [reflexivity|].
  rewrite stripMentions_without_lt; [apply trim_idem|].
  exact (Subseq_without (ch "<") (trim s) s (trim_Subseq s) H).
Qed.

(** X4: in a text made of plain code units and of user, role and channel
    mentions, every mention is removed: the result is the plain text,
    trimmed. *)
Theorem stripMentions_removes_mentions (ps : list piece) :
  forallb wellFormed ps = true ->
  stripMentions (textOf ps) = trim (plainOf ps).
Proof.
  intros H. unfold stripMentions.
  rewrite (removeAll_user_pieces ps H).
  rewrite removeAll_role_pieces by now apply forallb_filter_true.
  rewrite removeAll_channel_pieces
    by now apply forallb_filter_true, forallb_filter_true.
  now rewrite plainOf_filters.
Qed.

(** X5: on such a text [stripMentions] is idempotent. *)
Theorem stripMentions_idempotent_on_markup (ps : list piece) :
  forallb wellFormed ps = true ->
  stripMentions (stripMentions (textOf ps)) = stripMentions (textOf ps).
Proof.
  intros H. unfold stripMentions at 2 3.
  rewrite (removeAll_user_pieces ps H).
  rewrite removeAll_role_pieces by now apply forallb_filter_true.
  rewrite removeAll_channel_pieces
    by now apply forallb_filter_true, forallb_filter_true.
  rewrite plainOf_filters.
  rewrite stripMentions_without_lt; [apply trim_idem|].
  apply (Subseq_without (ch "<") (trim (plainOf ps)) (plainOf ps)
           (trim_Subseq _)).
  now apply plainOf_without_lt.
Qed.

(** *** [fetchNews] *)

(** X6: whatever the search client does, [fetchNews] resolves, and it
    calls the search exactly once, sorted by publication date and with the
    page size it was given. *)
Theorem fetchNews_never_rejects
    (query : jsstring) (ps : N) (opts : FetchOpts) :
  (exists l, outcome (fetchNews query ps opts) = inr l) /\
  (exists params,
     newsCalls (trace (fetchNews query ps opts)) = [NewsEverything params] /\
     NewsAPI.sortBy params = lit "publishedAt" /\
     NewsAPI.pageSize params = ps).
Proof.
  destruct (fetchNews_shape query ps opts) as (Ho & Hn & _).
  split; [exact Ho|].
  exists (searchParams query ps opts). split; [exact Hn|]. split; reflexivity.
Qed.

(** X7: when the search returns, [fetchNews] resolves to the articles of
    the response as they are, however many, and to the empty list when the
    response has none. *)
Theorem fetchNews_passes_articles
    (query : jsstring) (ps : N) (opts : FetchOpts)
    (res : NewsAPI.ArticlesResult) :
  NewsAPI.everything newsapi (searchParams query ps opts) = inr res ->
  (forall l, NewsAPI.articles res = Some l ->
             outcome (fetchNews query ps opts) = inr l) /\
  (NewsAPI.articles res = None ->
   outcome (fetchNews query ps opts) = inr []).
Proof.
  intros H. rewrite (fetchNews_returns _ _ _ _ H).
  split; [intros l E | intros E]; rewrite E; reflexivity.
Qed.

(** X8: with [opts.aiFilter] undefined the search is the one of the
    filter turned off: the raw topic, no language. *)
Theorem fetchNews_undefined_filter (topic : jsstring) (ps : N) :
  newsCalls (trace (fetchNews topic ps {| aiFilter := None |})) =
    [NewsEverything
       {| NewsAPI.q := topic;
          NewsAPI.sortBy := lit "publishedAt";
          NewsAPI.pageSize := ps;
          NewsAPI.language := None |}] /\
  fetchNews topic ps {| aiFilter := None |}
  = fetchNews topic ps {| aiFilter := Some false |}.
Proof.
  split; [|reflexivity].
  now destruct (fetchNews_shape topic ps {| aiFilter := None |})
    as (_ & H & _).
Qed.

(** *** [summarize] *)

(** X9: whatever the language-model client does and whatever the list,
    the empty one included, [summarize] resolves and calls the model
    exactly once, with model gpt-4o, 400 tokens and one user message that
    starts with the instruction. *)
Theorem summarize_never_rejects (arts : list Article) :
  (exists s, outcome (summarize arts) = inr s) /\
  (exists entries,
     chatCalls (trace (summarize arts)) =
       [ChatCreate
          {| OpenAI.model := lit "gpt-4o";
             OpenAI.messages :=
               [{| OpenAI.role := lit "user";
                   OpenAI.text := instruction ++ entries |}];
             OpenAI.max_tokens := 400 |}]).
Proof.
  destruct (summarize_shape arts) as (Ho & Hc & _).
  split; [exact Ho|]. exists (promptBody arts). exact Hc.
Qed.

Lemma summaryFailed_trimmed : trim summaryFailed = summaryFailed.
Proof. vm_compute. reflexivity. Qed.

(** X10: the text [summarize] resolves to has no white space at its
    ends: trimming it changes nothing. *)
Theorem summarize_result_trimmed (arts : list Article) (s : jsstring) :
  outcome (summarize arts) = inr s -> trim s = s.
Proof.
  rewrite summarize_run.
  destruct (OpenAI.create openai (summaryRequest arts)) as [e|res].
  - intros H. injection H as <-. apply summaryFailed_trimmed.
  - destruct (OpenAI.choices res) as [|c rest].
    + intros H. injection H as <-. apply summaryFailed_trimmed.
    + destruct (OpenAI.content (OpenAI.message c)) as [t|];
        intros H; injection H as <-; [apply trim_idem | reflexivity].
Qed.

(** X11: only the first choice of the response counts, and a content of
    white space alone gives the empty text, as a null content does. *)
Theorem summarize_blank_completion
    (arts : list Article) (res : OpenAI.ChatCompletion)
    (c : OpenAI.Choice) (rest : list OpenAI.Choice) (t : jsstring) :
  OpenAI.create openai (summaryRequest arts) = inr res ->
  OpenAI.choices res = c :: rest ->
  OpenAI.content (OpenAI.message c) = Some t ->
  outcome (summarize arts) = inr (trim t) /\
  (forallb isTrimSpace t = true -> outcome (summarize arts) = inr []).
Proof.
  intros H1 H2 H3. rewrite summarize_run, H1, H2, H3.
  split; [reflexivity|].
  intros Hw. apply trim_nil_iff in Hw. simpl. now rewrite Hw.
Qed.

(** *** [makeArticleList] *)

Lemma mapi_from_forallb {A : Type} (P : jsstring -> bool)
    (f : A -> nat -> jsstring) (xs : list A) :
  (forall a i, In a xs -> P (f a i) = true) ->
  forall k, forallb P (mapi_from f k xs) = true.
Proof.
  induction xs as [|x xs IH]; intros H k; simpl; [reflexivity|].
  rewrite (H x k) by (now left). simpl.
  apply IH. intros a i Ha. apply H. now right.
Qed.

(** X12: when no date and no URL holds a line break, splitting the
    rendered list on line breaks gives one line per article, in the order
    of the list: the marker, the date, the bar and the URL. *)
Theorem makeArticleList_lines (arts : list Article) :
  arts <> [] ->
  (forall a, In a arts ->
     without LF (toJSTDate (publishedAt a)) = true /\
     without LF (url a) = true) ->
  length (splitOn LF (makeArticleList arts)) = length arts /\
  forall i a, nth_error arts i = Some a ->
    nth_error (splitOn LF (makeArticleList arts)) i =
    Some (lit "【" ++ String_of_nat (i + 1) ++ lit "】"
          ++ toJSTDate (publishedAt a) ++ lit " ｜ " ++ url a).
Proof.
  intros Hne Hclean.
  assert (Hsplit : splitOn LF (makeArticleList arts) = mapi articleLine arts).
  { unfold makeArticleList. apply splitOn_join.
    - destruct arts; [now elim Hne | discriminate].
    - apply mapi_from_forallb. intros a i Ha.
      destruct (Hclean a Ha) as [Hd Hu].
      unfold articleLine, without in *. rewrite !forallb_app, Hd, Hu.
      fold (without LF (marker i)). rewrite marker_without_LF.
      vm_compute. reflexivity. }
  rewrite Hsplit. split; [apply mapi_from_length|].
  intros i a Hi. rewrite (mapi_nth articleLine arts i a Hi).
  unfold articleLine, marker. now rewrite <- !app_assoc.
Qed.

(** *** [composeAndSend] *)

Lemma trace_pair {A : Type} (t : list event) (r : exn + A) :
  trace (t, r) = t.
Proof. reflexivity. Qed.

Lemma outcome_pair {A : Type} (t : list event) (r : exn + A) :
  outcome (t, r) = r.
Proof. reflexivity. Qed.

Lemma fetchNews_trace_kinds (query : jsstring) (ps : N) (opts : FetchOpts) :
  filter isSuppress (trace (fetchNews query ps opts)) = [].
Proof.
  destruct (NewsAPI.everything newsapi (searchParams query ps opts))
    as [e|res] eqn:E.
  - now rewrite (fetchNews_throws _ _ _ _ E).
  - now rewrite (fetchNews_returns _ _ _ _ E).
Qed.

Lemma summarize_trace_kinds (arts : list Article) :
  newsCalls (trace (summarize arts)) = [] /\
  filter isSuppress (trace (summarize arts)) = [].
Proof.
  rewrite summarize_run.
  destruct (OpenAI.create openai (summaryRequest arts)) as [e|res];
    [now split|].
  destruct (OpenAI.choices res); now split.
Qed.

(** The whole run of [composeAndSend], by the result of the fetch. *)
Lemma composeAndSend_cases (target : Target) (theme : jsstring) (af : bool) :
  exists arts,
    outcome (fetchNews theme 5 {| aiFilter := Some af |}) = inr arts /\
    match arts with
    | [] =>
      exists notice,
        notice = match target with
                 | OfChannel _ => noDailyNews
                 | OfMessage _ => noRelatedNews
                 end /\
        composeAndSend target theme af =
        (trace (fetchNews theme 5 {| aiFilter := Some af |})
         ++ [deliveryTo target notice],
         match deliverWith target notice with
         | inl e => inl e
         | inr _ => inr tt
         end)
    | _ :: _ =>
      exists summary,
        outcome (summarize arts) = inr summary /\
        composeAndSend target theme af =
        (trace (fetchNews theme 5 {| aiFilter := Some af |})
         ++ trace (summarize arts)
         ++ deliveryTo target (composeMessage theme af summary arts)
            :: match deliverWith target
                       (composeMessage theme af summary arts) with
               | inl _ => []
               | inr _ => [SuppressEmbeds true]
               end,
         match deliverWith target (composeMessage theme af summary arts) with
         | inl e => inl e
         | inr sent => Discord.suppressEmbeds sent true
         end)
    end.
Proof.
  destruct (fetchNews_shape theme 5 {| aiFilter := Some af |})
    as ((arts & Hf) & _).
  exists arts. split; [exact Hf|].
  unfold composeAndSend, outcome, trace in *.
  destruct (fetchNews theme 5 {| aiFilter := Some af |}) as [t r].
  simpl in Hf. subst r.
  destruct arts as [|a arts'].
  - unfold bind at 1. simpl. eexists. split; [reflexivity|].
    destruct target as [c|m]; unfold bind, call, ret; simpl.
    + destruct (Discord.send c noDailyNews); reflexivity.
    + destruct (Discord.reply m noRelatedNews); reflexivity.
  - destruct (summarize_shape (a :: arts')) as ((summary & Hs) & _).
    unfold bind at 1.
    change (length (a :: arts') =? 0) with false. cbv iota.
    unfold outcome in Hs.
    destruct (summarize (a :: arts')) as [ts rs]. simpl in Hs. subst rs.
    unfold bind at 1.
    exists summary. split; [reflexivity|].
    destruct target as [c|m]; unfold bind, call; simpl.
    + destruct (Discord.send c _) as [e|sent]; [reflexivity|].
      destruct (Discord.suppressEmbeds sent true); reflexivity.
    + destruct (Discord.reply m _) as [e|sent]; [reflexivity|].
      destruct (Discord.suppressEmbeds sent true); reflexivity.
Qed.

(** X13: every run of [composeAndSend] has one shape: first the search,
    called once, and at most one model call; then exactly one delivery, by
    the method of the target; after it nothing, or the one call that
    suppresses the embeds. *)
Theorem composeAndSend_shape (target : Target) (theme : jsstring) (af : bool) :
  exists before text after,
    trace (composeAndSend target theme af)
      = before ++ deliveryTo target text :: after /\
    length (newsCalls before) = 1 /\
    length (chatCalls before) <= 1 /\
    deliveries before = [] /\
    (after = [] \/ after = [SuppressEmbeds true]).
Proof.
  destruct (composeAndSend_cases target theme af) as (arts & Hf & H).
  destruct (fetchNews_shape theme 5 {| aiFilter := Some af |})
    as (_ & Hfn & Hfc & Hfd).
  destruct arts as [|a arts'].
  - destruct H as (notice & _ & ->).
    exists (trace (fetchNews theme 5 {| aiFilter := Some af |})), notice, [].
    rewrite trace_pair.
    rewrite Hfn, Hfc, Hfd. simpl.
    split; [reflexivity|]. split; [reflexivity|]. split; [lia|].
    split; [reflexivity | now left].
  - destruct H as (summary & Hs & ->).
    destruct (summarize_shape (a :: arts')) as (_ & Hsc & Hsd).
    destruct (summarize_trace_kinds (a :: arts')) as (Hsn & _).
    exists (trace (fetchNews theme 5 {| aiFilter := Some af |})
            ++ trace (summarize (a :: arts'))),
      (composeMessage theme af summary (a :: arts')).
    eexists. rewrite trace_pair.
    split; [now rewrite <- app_assoc|].
    unfold newsCalls, chatCalls, deliveries in *.
    rewrite !filter_app, Hfn, Hfc, Hfd, Hsn, Hsc, Hsd. simpl.
    split; [reflexivity|]. split; [lia|]. split; [reflexivity|].
    destruct (deliverWith target _); auto.
Qed.

Lemma deliveryTo_inj (target : Target) (a b : jsstring) :
  deliveryTo target a = deliveryTo target b -> a = b.
Proof. destruct target; intros H; now injection H. Qed.

Lemma no_delivery_in (target : Target) (text : jsstring) (t : list event) :
  deliveries t = [] -> ~ In (deliveryTo target text) t.
Proof.
  intros H Hin.
  assert (Hd : In (deliveryTo target text) (deliveries t)).
  { apply filter_In. split; [exact Hin | apply isDelivery_deliveryTo]. }
  rewrite H in Hd. exact Hd.
Qed.

(** The run of [composeAndSend] around the text it delivers: before the
    delivery no [suppressEmbeds]; then either the notice path, which ends
    there, or the message path, which goes on with [suppressEmbeds]. *)
Lemma composeAndSend_delivered (target : Target) (theme : jsstring)
    (af : bool) (text : jsstring) :
  In (deliveryTo target text) (trace (composeAndSend target theme af)) ->
  exists before,
    filter isSuppress before = [] /\
    (composeAndSend target theme af =
       (before ++ [deliveryTo target text],
        match deliverWith target text with
        | inl e => inl e
        | inr _ => inr tt
        end)
     \/
     composeAndSend target theme af =
       (before
        ++ deliveryTo target text
           :: match deliverWith target text with
              | inl _ => []
              | inr _ => [SuppressEmbeds true]
              end,
        match deliverWith target text with
        | inl e => inl e
        | inr sent => Discord.suppressEmbeds sent true
        end)).
Proof.
  intros Hin.
  destruct (composeAndSend_cases target theme af) as (arts & Hf & H).
  destruct (fetchNews_shape theme 5 {| aiFilter := Some af |})
    as (_ & _ & _ & Hfd).
  pose proof (fetchNews_trace_kinds theme 5 {| aiFilter := Some af |}) as Hk.
  destruct arts as [|a arts'].
  - destruct H as (notice & _ & E). rewrite E in Hin |- *.
    rewrite trace_pair in Hin. apply in_app_or in Hin.
    destruct Hin as [Hin | [Hin | []]];
      [elim (no_delivery_in target text _ Hfd Hin)|].
    apply deliveryTo_inj in Hin. subst notice.
    exists (trace (fetchNews theme 5 {| aiFilter := Some af |})).
    split; [exact Hk | now left].
  - destruct H as (summary & Hs & E). rewrite E in Hin |- *.
    destruct (summarize_shape (a :: arts')) as (_ & _ & Hsd).
    destruct (summarize_trace_kinds (a :: arts')) as (_ & Hss).
    rewrite trace_pair in Hin. apply in_app_or in Hin.
    destruct Hin as [Hin | Hin];
      [elim (no_delivery_in target text _ Hfd Hin)|].
    apply in_app_or in Hin.
    destruct Hin as [Hin | Hin];
      [elim (no_delivery_in target text _ Hsd Hin)|].
    destruct Hin as [Hin | Hin].
    + apply deliveryTo_inj in Hin. rewrite Hin.
      exists (trace (fetchNews theme 5 {| aiFilter := Some af |})
              ++ trace (summarize (a :: arts'))).
      split; [now rewrite filter_app, Hk, Hss|].
      right. now rewrite <- app_assoc.
    + exfalso. destruct (deliverWith target _); [exact Hin|].
      destruct Hin as [Hin | []]. destruct target; discriminate.
Qed.

(** X14: a delivery that throws is not caught: when the call that
    delivers the text of the run throws, [composeAndSend] rejects with the
    thrown value, and does not call [suppressEmbeds]. *)
Theorem composeAndSend_delivery_failure
    (target : Target) (theme : jsstring) (af : bool)
    (text : jsstring) (e : exn) :
  In (deliveryTo target text) (trace (composeAndSend target theme af)) ->
  deliverWith target text = inl e ->
  outcome (composeAndSend target theme af) = inl e /\
  filter isSuppress (trace (composeAndSend target theme af)) = [].
Proof.
  intros Hin Hd.
  destruct (composeAndSend_delivered target theme af text Hin)
    as (before & Hb & [E | E]); rewrite E, trace_pair, outcome_pair, Hd;
    (split; [reflexivity|]); rewrite filter_app, Hb;
    destruct target; reflexivity.
Qed.

(** X15: failures of the search and of the language model never reach
    the caller: whatever these two clients do, when the call that delivers
    the text of the run returns, and [suppressEmbeds] returns if the run
    calls it, [composeAndSend] resolves. *)
Theorem composeAndSend_resolves
    (target : Target) (theme : jsstring) (af : bool)
    (text : jsstring) (sent : Discord.Sent) :
  In (deliveryTo target text) (trace (composeAndSend target theme af)) ->
  deliverWith target text = inr sent ->
  (In (SuppressEmbeds true) (trace (composeAndSend target theme af)) ->
   Discord.suppressEmbeds sent true = inr tt) ->
  outcome (composeAndSend target theme af) = inr tt.
Proof.
  intros Hin Hd Hsup.
  destruct (composeAndSend_delivered target theme af text Hin)
    as (before & Hb & [E | E]); rewrite E in Hsup |- *;
    rewrite outcome_pair, Hd; [reflexivity|].
  apply Hsup. rewrite trace_pair, Hd.
  apply in_or_app. right. right. now left.
Qed.

(** X16: the notice of an empty result is sent as it is, with no call to
    [suppressEmbeds]. *)
Theorem notice_keeps_embeds
    (target : Target) (theme : jsstring) (af : bool) :
  outcome (fetchNews theme 5 {| aiFilter := Some af |}) = inr [] ->
  filter isSuppress (trace (composeAndSend target theme af)) = [].
Proof.
  intros Hf. rewrite (composeAndSend_empty target theme af Hf).
  rewrite filter_app, fetchNews_trace_kinds.
  destruct target; reflexivity.
Qed.

(** X17: on a non-empty result, when the call that delivers the composed
    message returns the sent message, the run ends with that delivery
    followed by [suppressEmbeds(true)] on it, and resolves or rejects as
    that call does. *)
Theorem message_embeds_suppressed
    (target : Target) (theme : jsstring) (af : bool) (arts : list Article)
    (summary : jsstring) (sent : Discord.Sent) :
  outcome (fetchNews theme 5 {| aiFilter := Some af |}) = inr arts ->
  arts <> [] ->
  outcome (summarize arts) = inr summary ->
  deliverWith target (composeMessage theme af summary arts) = inr sent ->
  exists before,
    trace (composeAndSend target theme af)
      = before ++ [deliveryTo target (composeMessage theme af summary arts);
                   SuppressEmbeds true] /\
    outcome (composeAndSend target theme af)
      = Discord.suppressEmbeds sent true.
Proof.
  intros Hf Hne Hs Hsent.
  destruct (composeAndSend_cases target theme af) as (arts' & Hf' & H).
  rewrite Hf in Hf'. injection Hf' as <-.
  destruct arts as [|a arts']; [now elim Hne|].
  destruct H as (summary' & Hs' & ->).
  rewrite Hs in Hs'. injection Hs' as <-.
  exists (trace (fetchNews theme 5 {| aiFilter := Some af |})
          ++ trace (summarize (a :: arts'))).
  rewrite trace_pair, outcome_pair, Hsent.
  split; [now rewrite <- app_assoc | reflexivity].
Qed.

(** X18: a search that is down looks like a day without news: when the
    search call of the run throws, the target gets the "not found" notice
    and the model is not called. *)
Theorem search_down_gives_notice
    (target : Target) (theme : jsstring) (af : bool) (e : exn) :
  NewsAPI.everything newsapi (searchParams theme 5 {| aiFilter := Some af |})
    = inl e ->
  chatCalls (trace (composeAndSend target theme af)) = [] /\
  deliveries (trace (composeAndSend target theme af)) =
  [match target with
   | OfChannel _ => ChannelSend (lit "本日のニュースは見つかりませんでした。")
   | OfMessage _ => MessageReply (lit "関連ニュースが見つかりませんでした。")
   end].
Proof.
  intros He.
  assert (Hf : outcome (fetchNews theme 5 {| aiFilter := Some af |}) = inr [])
    by now rewrite (fetchNews_throws _ _ _ _ He).
  rewrite (composeAndSend_empty target theme af Hf).
  destruct (fetchNews_shape theme 5 {| aiFilter := Some af |})
    as (_ & _ & Hfc & Hfd).
  unfold chatCalls, deliveries in *. rewrite !filter_app, Hfc, Hfd.
  destruct target; split; reflexivity.
Qed.

(** *** The handlers *)

Lemma composeAndSend_newsCalls (target : Target) (theme : jsstring)
    (af : bool) :
  newsCalls (trace (composeAndSend target theme af))
  = [NewsEverything (searchParams theme 5 {| aiFilter := Some af |})].
Proof.
  destruct (composeAndSend_cases target theme af) as (arts & Hf & H).
  destruct (fetchNews_shape theme 5 {| aiFilter := Some af |})
    as (_ & Hfn & _).
  unfold newsCalls in *.
  destruct arts as [|a arts'].
  - destruct H as (notice & _ & ->).
    rewrite trace_pair, filter_app, Hfn. destruct target; reflexivity.
  - destruct H as (summary & _ & ->).
    destruct (summarize_trace_kinds (a :: arts')) as (Hsn & _).
    unfold newsCalls in Hsn.
    rewrite trace_pair, !filter_app, Hfn, Hsn.
    destruct target; simpl; destruct (_ : exn + Discord.Sent); reflexivity.
Qed.

Lemma composeAndSend_deliveries (target : Target) (theme : jsstring)
    (af : bool) :
  exists text,
    deliveries (trace (composeAndSend target theme af))
    = [deliveryTo target text].
Proof.
  destruct (composeAndSend_cases target theme af) as (arts & Hf & H).
  destruct (fetchNews_shape theme 5 {| aiFilter := Some af |})
    as (_ & _ & _ & Hfd).
  unfold deliveries in *.
  destruct arts as [|a arts'].
  - destruct H as (notice & _ & ->). exists notice.
    rewrite trace_pair, filter_app, Hfd. destruct target; reflexivity.
  - destruct H as (summary & _ & ->).
    destruct (summarize_shape (a :: arts')) as (_ & _ & Hsd).
    unfold deliveries in Hsd.
    exists (composeMessage theme af summary (a :: arts')).
    rewrite trace_pair, !filter_app, Hfd, Hsd.
    destruct target; simpl; destruct (_ : exn + Discord.Sent); reflexivity.
Qed.

(** X19: the daily job.  Without a channel it logs the error and calls
    no collaborator; with a channel it runs once, searching for "AI" with
    the filter (English, five articles) and sending to that channel. *)
Theorem onCron_daily (ch : option Discord.TextChannel) :
  match ch with
  | None =>
    filter (fun ev => negb (isConsole ev)) (trace (onCron None)) = [] /\
    outcome (onCron None) = inr tt
  | Some c =>
    newsCalls (trace (onCron (Some c))) =
      [NewsEverything
         {| NewsAPI.q :=
              lit "AI AND (AI OR " ++ [dquote]
              ++ lit "artificial intelligence" ++ [dquote]
              ++ lit " OR GenerativeAI)";
            NewsAPI.sortBy := lit "publishedAt";
            NewsAPI.pageSize := 5;
            NewsAPI.language := Some (lit "en") |}] /\
    (exists text, deliveries (trace (onCron (Some c))) = [ChannelSend text]) /\
    outcome (onCron (Some c))
    = outcome (composeAndSend (OfChannel c) (lit "AI") true)
  end.
Proof.
  destruct ch as [c|]; [|split; reflexivity].
  pose proof (composeAndSend_newsCalls (OfChannel c) (lit "AI") true) as Hn.
  destruct (composeAndSend_deliveries (OfChannel c) (lit "AI") true)
    as (text & Hd).
  unfold onCron, log, call, bind.
  destruct (composeAndSend (OfChannel c) (lit "AI") true) as [t o].
  rewrite trace_pair in Hn, Hd. rewrite !trace_pair, !outcome_pair.
  split; [|split; [exists text; exact Hd | reflexivity]].
  cbn [app newsCalls filter isNewsEverything]. unfold newsCalls in Hn.
  rewrite Hn. unfold searchParams, searchQuery. cbn [truthy aiFilter].
  do 2 f_equal.
Qed.

Lemma onMessageCreate_passed (msg : Discord.Message) :
  Discord.bot (Discord.author msg) = false ->
  Some (Discord.channelId msg) = TARGET_CHANNEL_ID ->
  stripMentions (Discord.content msg) <> [] ->
  exists line,
    onMessageCreate msg =
    (ConsoleLog line
     :: trace (composeAndSend (OfMessage msg)
                 (stripMentions (Discord.content msg)) false),
     outcome (composeAndSend (OfMessage msg)
                (stripMentions (Discord.content msg)) false)).
Proof.
  intros Hb Hc Hne. unfold onMessageCreate.
  rewrite stripMentions_trimmed, Hb, (strictEq_true _ _ Hc).
  cbn [negb]. cbv iota.
  destruct (stripMentions (Discord.content msg)) as [|c r] eqn:Es;
    [now elim Hne|].
  unfold log, call, bind, trace, outcome.
  destruct (composeAndSend (OfMessage msg) (c :: r) false) as [t o].
  eexists. reflexivity.
Qed.

Lemma onMessageCreate_either (msg : Discord.Message) :
  onMessageCreate msg = ([], inr tt) \/
  exists line,
    onMessageCreate msg =
    (ConsoleLog line
     :: trace (composeAndSend (OfMessage msg)
                 (stripMentions (Discord.content msg)) false),
     outcome (composeAndSend (OfMessage msg)
                (stripMentions (Discord.content msg)) false)).
Proof.
  destruct (Discord.bot (Discord.author msg)) eqn:Hb.
  { left. unfold onMessageCreate. now rewrite Hb. }
  destruct (strictEq (Discord.channelId msg) TARGET_CHANNEL_ID) eqn:Hc.
  2:{ left. unfold onMessageCreate. now rewrite Hb, Hc. }
  destruct (stripMentions (Discord.content msg)) as [|c r] eqn:Es.
  { left. unfold onMessageCreate.
    now rewrite stripMentions_trimmed, Hb, Hc, Es. }
  right. rewrite <- Es. apply onMessageCreate_passed; [exact Hb| |].
  - destruct TARGET_CHANNEL_ID as [s|]; [|discriminate].
    simpl in Hc. apply str_eqb_eq in Hc. now subst.
  - rewrite Es. discriminate.
Qed.

(** X20: when [TARGET_CHANNEL_ID] is not set, every message is ignored. *)
Theorem onMessageCreate_without_channel (msg : Discord.Message) :
  TARGET_CHANNEL_ID = None -> onMessageCreate msg = ([], inr tt).
Proof.
  intros H. unfold onMessageCreate. rewrite H.
  destruct (Discord.bot (Discord.author msg)); reflexivity.
Qed.

(** X21: for a message that is taken, the search is called once, with
    the stripped text as it is for query, five articles by date, and no
    language. *)
Theorem onMessageCreate_search (msg : Discord.Message) :
  Discord.bot (Discord.author msg) = false ->
  Some (Discord.channelId msg) = TARGET_CHANNEL_ID ->
  stripMentions (Discord.content msg) <> [] ->
  newsCalls (trace (onMessageCreate msg)) =
    [NewsEverything
       {| NewsAPI.q := stripMentions (Discord.content msg);
          NewsAPI.sortBy := lit "publishedAt";
          NewsAPI.pageSize := 5;
          NewsAPI.language := None |}].
Proof.
  intros Hb Hc Hne.
  destruct (onMessageCreate_passed msg Hb Hc Hne) as (line & ->).
  rewrite trace_pair.
  change (newsCalls (ConsoleLog line :: ?t)) with (newsCalls t).
  apply composeAndSend_newsCalls.
Qed.

(** X22: a message made of mentions and white space alone is ignored. *)
Theorem onMessageCreate_only_mentions
    (msg : Discord.Message) (ps : list piece) :
  Discord.content msg = textOf ps ->
  forallb wellFormed ps = true ->
  forallb isTrimSpace (plainOf ps) = true ->
  onMessageCreate msg = ([], inr tt).
Proof.
  intros Hc Hwf Hws.
  assert (Hs : stripMentions (Discord.content msg) = []).
  { rewrite Hc. unfold stripMentions.
    rewrite (removeAll_user_pieces ps Hwf).
    rewrite removeAll_role_pieces by now apply forallb_filter_true.
    rewrite removeAll_channel_pieces
      by now apply forallb_filter_true, forallb_filter_true.
    rewrite plainOf_filters. now apply trim_nil_iff. }
  unfold onMessageCreate. rewrite stripMentions_trimmed, Hs.
  destruct (Discord.bot (Discord.author msg)); [reflexivity|].
  destruct (negb _); reflexivity.
Qed.

(** X23: the handler rejects only when the reply or [suppressEmbeds]
    throws: a rejection is the value thrown by the reply of the run, or by
    [suppressEmbeds] on the message that reply returned; so when the calls
    the run makes to the platform return, it resolves. *)
Theorem onMessageCreate_resolves (msg : Discord.Message) :
  (forall e, outcome (onMessageCreate msg) = inl e ->
     exists text,
       In (MessageReply text) (trace (onMessageCreate msg)) /\
       (Discord.reply msg text = inl e \/
        exists sent,
          Discord.reply msg text = inr sent /\
          In (SuppressEmbeds true) (trace (onMessageCreate msg)) /\
          Discord.suppressEmbeds sent true = inl e)) /\
  ((forall text, In (MessageReply text) (trace (onMessageCreate msg)) ->
      exists sent,
        Discord.reply msg text = inr sent /\
        (In (SuppressEmbeds true) (trace (onMessageCreate msg)) ->
         Discord.suppressEmbeds sent true = inr tt)) ->
   outcome (onMessageCreate msg) = inr tt).
Proof.
  destruct (onMessageCreate_either msg) as [-> | (line & ->)].
  { split; [intros e H; discriminate | reflexivity]. }
  rewrite trace_pair, outcome_pair.
  destruct (composeAndSend_cases (OfMessage msg)
              (stripMentions (Discord.content msg)) false)
    as (arts & Hf & H).
  destruct arts as [|a arts'].
  - destruct H as (notice & _ & ->). rewrite trace_pair, outcome_pair.
    cbn [deliverWith deliveryTo].
    assert (Hin : In (MessageReply notice)
                    (ConsoleLog line
                     :: trace (fetchNews (stripMentions (Discord.content msg))
                                 5 {| aiFilter := Some false |})
                        ++ [MessageReply notice])).
    { right. apply in_or_app. right. now left. }
    split.
    + intros e He. exists notice. split; [exact Hin|].
      destruct (Discord.reply msg notice) as [e'|sent];
        [left; congruence | discriminate].
    + intros Hret. destruct (Hret notice Hin) as (sent & -> & _).
      reflexivity.
  - destruct H as (summary & _ & ->). rewrite trace_pair, outcome_pair.
    cbn [deliverWith deliveryTo].
    set (text := composeMessage (stripMentions (Discord.content msg)) false
                   summary (a :: arts')).
    set (tf := trace (fetchNews (stripMentions (Discord.content msg)) 5
                        {| aiFilter := Some false |})).
    set (ts := trace (summarize (a :: arts'))).
    assert (Hin : forall rest,
               In (MessageReply text)
                  (ConsoleLog line :: tf ++ ts ++ MessageReply text :: rest)).
    { intros rest. right. apply in_or_app. right.
      apply in_or_app. right. now left. }
    split.
    + intros e He. exists text. split; [apply Hin|].
      destruct (Discord.reply msg text) as [e'|sent];
        [left; congruence|].
      right. exists sent. split; [reflexivity|]. split; [|exact He].
      right. apply in_or_app. right. apply in_or_app. right.
      right. now left.
    + intros Hret. destruct (Hret text (Hin _)) as (sent & Hs & Hsup).
      rewrite Hs in Hsup |- *. apply Hsup.
      right. apply in_or_app. right. apply in_or_app. right.
      right. now left.
Qed.

(** *** The check of the environment *)

(** X24: the check at start never fails, and logs one warning for each of
    the four variables that is unset or empty, in the order DISCORD_TOKEN,
    TARGET_CHANNEL_ID, OPENAI_API_KEY, NEWS_API_KEY. *)
Theorem envCheck_warnings (env : jsstring -> option jsstring) :
  outcome (envCheck env) = inr tt /\
  trace (envCheck env) =
    map (fun k => ConsoleLog (lit "⚠️  " ++ k ++ lit " が未設定"))
      (filter (fun k => unset (env k))
         [lit "DISCORD_TOKEN"; lit "TARGET_CHANNEL_ID";
          lit "OPENAI_API_KEY"; lit "NEWS_API_KEY"]).
Proof.
  unfold envCheck, requiredEnv, envWarning. cbn [forEach filter].
  destruct (unset (env (lit "DISCORD_TOKEN")));
    destruct (unset (env (lit "TARGET_CHANNEL_ID")));
    destruct (unset (env (lit "OPENAI_API_KEY")));
    destruct (unset (env (lit "NEWS_API_KEY")));
    split; reflexivity.
Qed.

End Bot.

(* ================================================================== *)
(** ** The properties on concrete runs *)
(* ================================================================== *)

(** A daily run that finds nothing: one notice, no model call. *)
Lemma composeAndSend_empty_short_circuit_witness :
  outcome (fetchNews Sample.newsNone (lit "AI") 5 {| aiFilter := Some true |})
    = inr [] /\
  chatCalls (trace (composeAndSend Sample.dayOf Sample.newsNone Sample.aiOk
                      (OfChannel Sample.channel) (lit "AI") true)) = [] /\
  (exists notice,
     (notice = ChannelSend (lit "本日のニュースは見つかりませんでした。") \/
      notice = MessageReply (lit "関連ニュースが見つかりませんでした。")) /\
     deliveries (trace (composeAndSend Sample.dayOf Sample.newsNone
                          Sample.aiOk (OfChannel Sample.channel)
                          (lit "AI") true)) = [notice] /\
     trace (composeAndSend Sample.dayOf Sample.newsNone Sample.aiOk
              (OfChannel Sample.channel) (lit "AI") true) =
       trace (fetchNews Sample.newsNone (lit "AI") 5
                {| aiFilter := Some true |}) ++ [notice]).
Proof.
  split; [vm_compute; reflexivity|].
  apply (composeAndSend_empty_short_circuit Sample.dayOf Sample.newsNone
           Sample.aiOk (OfChannel Sample.channel) (lit "AI") true []).
  - vm_compute; reflexivity.
  - reflexivity.
Defined.

(** Two articles and a language model that is down. *)
Lemma summarize_failure_still_delivers_witness :
  outcome (summarize Sample.aiDown [Sample.a1; Sample.a2])
    = inr (lit "⚠️ 要約に失敗しました") /\
  deliveries (trace (composeAndSend Sample.dayOf Sample.newsTwo Sample.aiDown
                       (OfChannel Sample.channel) (lit "AI") true)) =
    [deliveryTo (OfChannel Sample.channel)
       (header (lit "AI") true ++ [LF] ++ lit "⚠️ 要約に失敗しました" ++ [LF]
        ++ separator ++ [LF]
        ++ makeArticleList Sample.dayOf [Sample.a1; Sample.a2])].
Proof.
  apply (summarize_failure_still_delivers Sample.dayOf Sample.newsTwo
           Sample.aiDown (OfChannel Sample.channel) (lit "AI") true
           [Sample.a1; Sample.a2] (Error (lit "429"))).
  - vm_compute; reflexivity.
  - discriminate.
  - reflexivity.
Defined.

(** C4, as stated, fails on nested markup: removing the inner mention
    of [<@<@1>2>] leaves the mention [<@2>], which a second pass removes. *)
Lemma stripMentions_not_idempotent :
  stripMentions (lit "<@<@1>2>") = lit "<@2>" /\
  stripMentions (stripMentions (lit "<@<@1>2>")) = [] /\
  stripMentions (stripMentions (lit "<@<@1>2>"))
    <> stripMentions (lit "<@<@1>2>").
Proof.
  split; [vm_compute; reflexivity|].
  split; [vm_compute; reflexivity|].
  vm_compute. discriminate.
Qed.

(** A text with plain markup: the stripped text holds none, and a second
    pass changes nothing. *)
Lemma stripMentions_idempotent_iff_witness :
  hasMention (stripMentions (lit "  <@123> hello <#9> <@&77>x<@!5> ")) = false /\
  stripMentions (stripMentions (lit "  <@123> hello <#9> <@&77>x<@!5> "))
    = stripMentions (lit "  <@123> hello <#9> <@&77>x<@!5> ").
Proof.
  split; [vm_compute; reflexivity|].
  apply (proj2 (stripMentions_idempotent_iff
                  (lit "  <@123> hello <#9> <@&77>x<@!5> "))).
  vm_compute; reflexivity.
Defined.

(** Two articles: one model call, both titles in the prompt. *)
Lemma summarizer_called_once_with_every_title_witness :
  exists entries,
    chatCalls (trace (composeAndSend Sample.dayOf Sample.newsTwo Sample.aiOk
                        (OfChannel Sample.channel) (lit "AI") true)) =
      [ChatCreate
         {| OpenAI.model := lit "gpt-4o";
            OpenAI.messages :=
              [{| OpenAI.role := lit "user";
                  OpenAI.text :=
                    (lit "次の複数記事を日本語 200 字以内で分かりやすく要約し、"
                     ++ lit "箇条書きでポイントを整理してください。"
                     ++ [LF; LF])
                    ++ join [LF; LF] entries |}];
            OpenAI.max_tokens := 400 |}] /\
    length entries = length [Sample.a1; Sample.a2] /\
    forall i a, nth_error [Sample.a1; Sample.a2] i = Some a ->
      nth_error entries i =
      Some (lit "【" ++ String_of_nat (i + 1) ++ lit "】" ++ title a
            ++ [LF]
            ++ (match description a with Some d => d | None => [] end)).
Proof.
  apply (summarizer_called_once_with_every_title Sample.dayOf Sample.newsTwo
           Sample.aiOk (OfChannel Sample.channel) (lit "AI") true
           [Sample.a1; Sample.a2]).
  - vm_compute; reflexivity.
  - simpl; lia.
Defined.

(** Two articles and a summary: what the channel is sent. *)
Lemma message_layout_witness :
  exists summary,
    outcome (summarize Sample.aiOk [Sample.a1; Sample.a2]) = inr summary /\
    deliveries (trace (composeAndSend Sample.dayOf Sample.newsTwo Sample.aiOk
                         (OfMessage (Sample.messageOf false Sample.room
                                       (lit "chips")))
                         (lit "chips") false)) =
      [deliveryTo (OfMessage (Sample.messageOf false Sample.room
                                (lit "chips")))
         (composeMessage Sample.dayOf (lit "chips") false summary
            [Sample.a1; Sample.a2])].
Proof.
  apply (proj2 (message_layout Sample.dayOf Sample.newsTwo Sample.aiOk)).
  - vm_compute; reflexivity.
  - discriminate.
Defined.

(** A search that is down. *)
Lemma fetchNews_failure_is_empty_witness :
  outcome (fetchNews Sample.newsDown (lit "AI") 5 default_opts) = inr [].
Proof.
  apply (fetchNews_failure_is_empty Sample.newsDown (lit "AI") 5 default_opts
           (Error (lit "ECONNRESET"))).
  reflexivity.
Defined.

(** The four cases of the message handler. *)
Lemma onMessageCreate_gate_witness :
  onMessageCreate Sample.dayOf Sample.newsTwo Sample.aiOk (Some Sample.room)
    (Sample.messageOf true Sample.room (lit "robots")) = ([], inr tt) /\
  onMessageCreate Sample.dayOf Sample.newsTwo Sample.aiOk (Some Sample.room)
    (Sample.messageOf false (lit "2002") (lit "robots")) = ([], inr tt) /\
  onMessageCreate Sample.dayOf Sample.newsTwo Sample.aiOk (Some Sample.room)
    (Sample.messageOf false Sample.room (lit " <@12> ")) = ([], inr tt) /\
  (exists line,
     trace (onMessageCreate Sample.dayOf Sample.newsTwo Sample.aiOk
              (Some Sample.room)
              (Sample.messageOf false Sample.room (lit "<@12> robots ")))
     = ConsoleLog line
       :: trace (composeAndSend Sample.dayOf Sample.newsTwo Sample.aiOk
                   (OfMessage (Sample.messageOf false Sample.room
                                 (lit "<@12> robots ")))
                   (stripMentions (lit "<@12> robots ")) false)).
Proof.
  split; [|split; [|split]].
  - apply (proj1 (onMessageCreate_gate Sample.dayOf Sample.newsTwo
                    Sample.aiOk (Some Sample.room)
                    (Sample.messageOf true Sample.room (lit "robots")))).
    reflexivity.
  - apply (proj1 (proj2 (onMessageCreate_gate Sample.dayOf Sample.newsTwo
                    Sample.aiOk (Some Sample.room)
                    (Sample.messageOf false (lit "2002") (lit "robots"))))).
    vm_compute. discriminate.
  - apply (proj1 (proj2 (proj2 (onMessageCreate_gate Sample.dayOf
                    Sample.newsTwo Sample.aiOk (Some Sample.room)
                    (Sample.messageOf false Sample.room (lit " <@12> ")))))).
    vm_compute; reflexivity.
  - apply (proj2 (proj2 (proj2 (onMessageCreate_gate Sample.dayOf
                    Sample.newsTwo Sample.aiOk (Some Sample.room)
                    (Sample.messageOf false Sample.room
                       (lit "<@12> robots ")))))).
    + reflexivity.
    + reflexivity.
    + vm_compute. discriminate.
Defined.

(** An on-demand run that finds nothing, with the filter off. *)
Lemma notice_chosen_by_target_witness :
  deliveries (trace (composeAndSend Sample.dayOf Sample.newsNone Sample.aiOk
                       (OfMessage (Sample.messageOf false Sample.room
                                     (lit "quantum computing")))
                       (lit "quantum computing") false)) =
  [MessageReply (lit "関連ニュースが見つかりませんでした。")].
Proof.
  apply (notice_chosen_by_target Sample.dayOf Sample.newsNone Sample.aiOk
           (OfMessage (Sample.messageOf false Sample.room
                         (lit "quantum computing")))
           (lit "quantum computing") false).
  vm_compute; reflexivity.
Defined.

(** C10, as stated, fails on a response without choices: the call
    returns, and the result is the fallback. *)
Lemma fallback_without_throw :
  OpenAI.create Sample.aiNoChoice (summaryRequest [Sample.a1])
    = inr {| OpenAI.choices := [] |} /\
  outcome (summarize Sample.aiNoChoice [Sample.a1]) = inr summaryFailed /\
  ~ (forall (openai : OpenAI.client) (arts : list Article),
       outcome (summarize openai arts) = inr summaryFailed ->
       exists e, OpenAI.create openai (summaryRequest arts) = inl e).
Proof.
  split; [reflexivity|].
  split; [vm_compute; reflexivity|].
  intros H.
  destruct (H Sample.aiNoChoice [Sample.a1]) as (e & He).
  - vm_compute; reflexivity.
  - discriminate He.
Qed.

(** A null content, a content, a thrown call and a response without
    choices. *)
Lemma summarize_null_content_and_fallback_witness :
  (outcome (summarize Sample.aiNull [Sample.a1]) = inr [] /\
   outcome (summarize Sample.aiNull [Sample.a1]) <> inr summaryFailed) /\
  outcome (summarize Sample.aiOk [Sample.a1]) = inr (trim (lit " ok ")) /\
  outcome (summarize Sample.aiDown [Sample.a1]) = inr summaryFailed /\
  outcome (summarize Sample.aiNoChoice [Sample.a1]) = inr summaryFailed.
Proof.
  split; [|split; [|split]].
  - apply (proj1 (summarize_null_content_and_fallback Sample.aiNull
                    [Sample.a1])
             (Sample.completion None)
             {| OpenAI.message := {| OpenAI.content := None |} |} []);
      reflexivity.
  - apply (proj1 (proj2 (summarize_null_content_and_fallback Sample.aiOk
                           [Sample.a1]))
             (Sample.completion (Some (lit " ok ")))
             {| OpenAI.message := {| OpenAI.content := Some (lit " ok ") |} |}
             [] (lit " ok "));
      reflexivity.
  - apply (proj1 (proj2 (proj2 (summarize_null_content_and_fallback
                                  Sample.aiDown [Sample.a1])))).
    left. exists (Error (lit "429")). reflexivity.
  - apply (proj1 (proj2 (proj2 (summarize_null_content_and_fallback
                                  Sample.aiNoChoice [Sample.a1])))).
    right. exists {| OpenAI.choices := [] |}. split; reflexivity.
Defined.

(* ================================================================== *)
(** ** The further properties on concrete runs *)
(* ================================================================== *)

Lemma stripMentions_plain_text_witness :
  stripMentions (lit "  hello world ") = trim (lit "  hello world ") /\
  stripMentions (stripMentions (lit "  hello world "))
  = stripMentions (lit "  hello world ").
Proof.
  apply (stripMentions_plain_text (lit "  hello world ")).
  vm_compute; reflexivity.
Defined.

Lemma stripMentions_removes_mentions_witness :
  textOf Sample.pieces = lit " <@123>hi<@&77><#9><@!5> " /\
  stripMentions (textOf Sample.pieces) = trim (plainOf Sample.pieces).
Proof.
  split; [vm_compute; reflexivity|].
  apply (stripMentions_removes_mentions Sample.pieces).
  vm_compute; reflexivity.
Defined.

Lemma stripMentions_idempotent_on_markup_witness :
  stripMentions (stripMentions (textOf Sample.pieces))
  = stripMentions (textOf Sample.pieces).
Proof.
  apply (stripMentions_idempotent_on_markup Sample.pieces).
  vm_compute; reflexivity.
Defined.

Lemma fetchNews_passes_articles_witness :
  outcome (fetchNews Sample.newsTwo (lit "AI") 1 default_opts)
  = inr [Sample.a1; Sample.a2].
Proof.
  apply (proj1 (fetchNews_passes_articles Sample.newsTwo (lit "AI") 1
                  default_opts
                  {| NewsAPI.articles := Some [Sample.a1; Sample.a2] |}
                  eq_refl)).
  reflexivity.
Defined.

Lemma summarize_result_trimmed_witness :
  outcome (summarize Sample.aiOk [Sample.a1]) = inr (lit "ok") /\
  trim (lit "ok") = lit "ok".
Proof.
  assert (H : outcome (summarize Sample.aiOk [Sample.a1]) = inr (lit "ok"))
    by (vm_compute; reflexivity).
  split; [exact H|].
  exact (summarize_result_trimmed Sample.aiOk [Sample.a1] (lit "ok") H).
Defined.

Lemma summarize_blank_completion_witness :
  outcome (summarize Sample.aiBlank [Sample.a1])
    = inr (trim [32; 10; 12288]%N) /\
  (forallb isTrimSpace [32; 10; 12288]%N = true ->
   outcome (summarize Sample.aiBlank [Sample.a1]) = inr []).
Proof.
  apply (summarize_blank_completion Sample.aiBlank [Sample.a1]
           (Sample.completion (Some [32; 10; 12288]%N))
           {| OpenAI.message :=
                {| OpenAI.content := Some [32; 10; 12288]%N |} |} []);
    reflexivity.
Defined.

Lemma makeArticleList_lines_witness :
  length (splitOn LF (makeArticleList Sample.dayOf [Sample.a1; Sample.a2]))
    = length [Sample.a1; Sample.a2] /\
  forall i a, nth_error [Sample.a1; Sample.a2] i = Some a ->
    nth_error (splitOn LF (makeArticleList Sample.dayOf
                             [Sample.a1; Sample.a2])) i =
    Some (lit "【" ++ String_of_nat (i + 1) ++ lit "】"
          ++ Sample.dayOf (publishedAt a) ++ lit " ｜ " ++ url a).
Proof.
  apply (makeArticleList_lines Sample.dayOf [Sample.a1; Sample.a2]).
  - discriminate.
  - intros a [<- | [<- | []]]; split; vm_compute; reflexivity.
Defined.

Lemma composeAndSend_delivery_failure_witness :
  outcome (composeAndSend Sample.dayOf Sample.newsTwo Sample.aiOk
             (OfChannel Sample.channelDown) (lit "AI") true)
    = inl (Error (lit "50001")) /\
  filter isSuppress
    (trace (composeAndSend Sample.dayOf Sample.newsTwo Sample.aiOk
              (OfChannel Sample.channelDown) (lit "AI") true)) = [].
Proof.
  apply (composeAndSend_delivery_failure Sample.dayOf Sample.newsTwo
           Sample.aiOk (OfChannel Sample.channelDown) (lit "AI") true
           (composeMessage Sample.dayOf (lit "AI") true (lit "ok")
              [Sample.a1; Sample.a2])
           (Error (lit "50001"))).
  - vm_compute. do 4 right. left. reflexivity.
  - reflexivity.
Defined.

Lemma composeAndSend_resolves_witness :
  outcome (composeAndSend Sample.dayOf Sample.newsDown Sample.aiDown
             (OfChannel Sample.channel) (lit "AI") true) = inr tt.
Proof.
  apply (composeAndSend_resolves Sample.dayOf Sample.newsDown Sample.aiDown
           (OfChannel Sample.channel) (lit "AI") true
           noDailyNews Sample.sent).
  - vm_compute. do 3 right. left. reflexivity.
  - reflexivity.
  - intros _. reflexivity.
Defined.

Lemma notice_keeps_embeds_witness :
  filter isSuppress
    (trace (composeAndSend Sample.dayOf Sample.newsNone Sample.aiOk
              (OfChannel Sample.channel) (lit "AI") true)) = [].
Proof.
  apply (notice_keeps_embeds Sample.dayOf Sample.newsNone Sample.aiOk
           (OfChannel Sample.channel) (lit "AI") true).
  vm_compute; reflexivity.
Defined.

Lemma message_embeds_suppressed_witness :
  exists before,
    trace (composeAndSend Sample.dayOf Sample.newsTwo Sample.aiOk
             (OfChannel Sample.channelStuck) (lit "AI") true)
      = before
        ++ [deliveryTo (OfChannel Sample.channelStuck)
              (composeMessage Sample.dayOf (lit "AI") true (lit "ok")
                 [Sample.a1; Sample.a2]);
            SuppressEmbeds true] /\
    outcome (composeAndSend Sample.dayOf Sample.newsTwo Sample.aiOk
               (OfChannel Sample.channelStuck) (lit "AI") true)
      = Discord.suppressEmbeds Sample.sentStuck true.
Proof.
  apply (message_embeds_suppressed Sample.dayOf Sample.newsTwo Sample.aiOk
           (OfChannel Sample.channelStuck) (lit "AI") true
           [Sample.a1; Sample.a2] (lit "ok") Sample.sentStuck).
  - vm_compute; reflexivity.
  - discriminate.
  - vm_compute; reflexivity.
  - reflexivity.
Defined.

Lemma search_down_gives_notice_witness :
  chatCalls (trace (composeAndSend Sample.dayOf Sample.newsDown Sample.aiOk
                      (OfMessage (Sample.messageOf false Sample.room
                                    (lit "robots")))
                      (lit "robots") false)) = [] /\
  deliveries (trace (composeAndSend Sample.dayOf Sample.newsDown Sample.aiOk
                       (OfMessage (Sample.messageOf false Sample.room
                                     (lit "robots")))
                       (lit "robots") false)) =
  [MessageReply (lit "関連ニュースが見つかりませんでした。")].
Proof.
  apply (search_down_gives_notice Sample.dayOf Sample.newsDown Sample.aiOk
           (OfMessage (Sample.messageOf false Sample.room (lit "robots")))
           (lit "robots") false (Error (lit "ECONNRESET"))).
  reflexivity.
Defined.

Lemma onMessageCreate_without_channel_witness :
  onMessageCreate Sample.dayOf Sample.newsTwo Sample.aiOk None
    (Sample.messageOf false Sample.room (lit "robots")) = ([], inr tt).
Proof.
  apply (onMessageCreate_without_channel Sample.dayOf Sample.newsTwo
           Sample.aiOk None
           (Sample.messageOf false Sample.room (lit "robots"))).
  reflexivity.
Defined.

Lemma onMessageCreate_search_witness :
  newsCalls (trace (onMessageCreate Sample.dayOf Sample.newsTwo Sample.aiOk
                      (Some Sample.room)
                      (Sample.messageOf false Sample.room
                         (lit "<@12> robots ")))) =
    [NewsEverything
       {| NewsAPI.q := stripMentions (lit "<@12> robots ");
          NewsAPI.sortBy := lit "publishedAt";
          NewsAPI.pageSize := 5;
          NewsAPI.language := None |}].
Proof.
  apply (onMessageCreate_search Sample.dayOf Sample.newsTwo Sample.aiOk
           (Some Sample.room)
           (Sample.messageOf false Sample.room (lit "<@12> robots "))).
  - reflexivity.
  - reflexivity.
  - vm_compute. discriminate.
Defined.

Lemma onMessageCreate_only_mentions_witness :
  onMessageCreate Sample.dayOf Sample.newsTwo Sample.aiOk (Some Sample.room)
    (Sample.messageOf false Sample.room (textOf Sample.onlyMentions))
  = ([], inr tt).
Proof.
  apply (onMessageCreate_only_mentions Sample.dayOf Sample.newsTwo
           Sample.aiOk (Some Sample.room)
           (Sample.messageOf false Sample.room (textOf Sample.onlyMentions))
           Sample.onlyMentions).
  - reflexivity.
  - vm_compute; reflexivity.
  - vm_compute; reflexivity.
Defined.

Lemma onMessageCreate_resolves_witness :
  (exists text,
     In (MessageReply text)
        (trace (onMessageCreate Sample.dayOf Sample.newsTwo Sample.aiOk
                  (Some Sample.room) Sample.mutedMessage)) /\
     (Discord.reply Sample.mutedMessage text = inl (Error (lit "50013")) \/
      exists sent,
        Discord.reply Sample.mutedMessage text = inr sent /\
        In (SuppressEmbeds true)
           (trace (onMessageCreate Sample.dayOf Sample.newsTwo Sample.aiOk
                     (Some Sample.room) Sample.mutedMessage)) /\
        Discord.suppressEmbeds sent true = inl (Error (lit "50013")))) /\
  outcome (onMessageCreate Sample.dayOf Sample.newsDown Sample.aiDown
             (Some Sample.room)
             (Sample.messageOf false Sample.room (lit "robots"))) = inr tt.
Proof.
  split.
  - apply (proj1 (onMessageCreate_resolves Sample.dayOf Sample.newsTwo
                    Sample.aiOk (Some Sample.room) Sample.mutedMessage)
             (Error (lit "50013"))).
    vm_compute; reflexivity.
  - apply (proj2 (onMessageCreate_resolves Sample.dayOf Sample.newsDown
                    Sample.aiDown (Some Sample.room)
                    (Sample.messageOf false Sample.room (lit "robots")))).
    intros text _. exists Sample.sent.
    split; [reflexivity | intros _; reflexivity].
Defined.
